(** * boilerplate-express: the request pipeline of [src/index.js]

    [index.js] is the composition root of an Express application.  Its
    first-party logic is
    - the conditional CSRF middleware (lines 91-97),
    - the [res.locals.user] middleware (lines 100-103),
    - the return-to capture middleware (lines 104-117),
    - the route table (lines 124-222) with its inline OAuth callbacks,
    - the MongoDB connection block (lines 51-59).

    The embedding models [req]/[res] of one request as a record [Ctx] that
    is threaded through the layers by a small state monad; [next()],
    [res.redirect(..)] and [next(err)] are the three results [Flow] of a
    layer.  Third-party middleware (lusca, passport, multer, express.static)
    and the controller and passport-configuration modules of the repository
    are collaborators: they are fields of a record the pipeline is
    parametrised by. *)

From Stdlib Require Import String Ascii List Bool Arith Lia.
Import ListNotations.
Open Scope string_scope.
Open Scope list_scope.

(** ** Strings: the two regular expressions of the return-to middleware *)

Module Str.

(** [s.match(/^<p>/)] is non-null: [p] is a prefix of [s]. *)
Definition starts_with (p s : string) : bool := String.prefix p s.

(** [s.match(/\<c>/)] is non-null: the character [c] occurs in [s]. *)
Fixpoint contains_char (c : ascii) (s : string) : bool :=
  match s with
  | EmptyString => false
  | String a rest => if Ascii.eqb a c then true else contains_char c rest
  end.

Definition dot : ascii := "."%char.

(** JavaScript truthiness of a string: every string but the empty one. *)
Definition truthy (s : string) : bool :=
  match s with EmptyString => false | String _ _ => true end.

(** [a || d] where [a] is a string or [undefined]. *)
Definition or_else (a : option string) (d : string) : string :=
  match a with
  | Some s => if truthy s then s else d
  | None => d
  end.

End Str.

(** ** Requests, sessions and responses *)

Inductive Method := GET | HEAD | OPTIONS | POST | PUT | PATCH | DELETE.

Definition Method_eqb (a b : Method) : bool :=
  match a, b with
  | GET, GET | HEAD, HEAD | OPTIONS, OPTIONS | POST, POST
  | PUT, PUT | PATCH, PATCH | DELETE, DELETE => true
  | _, _ => false
  end.

(** The session principal.  [index.js] only tests [req.user] for presence;
    the provider tokens are what the authorization gate of
    [config/passport] looks at. *)
Record User := mkUser {
  user_id : string;
  user_tokens : list string
}.

(** [req.session], as far as [index.js] touches it. *)
Record Session := mkSession {
  returnTo : option string
}.

(** One request/response exchange: the fields of [req] and [res] that the
    layers of [index.js] read or write. *)
Record Ctx := mkCtx {
  req_method : Method;
  req_path : string;
  req_user : option User;
  req_session : Session;
  res_locals_user : option User
}.

Definition set_returnTo (p : string) (c : Ctx) : Ctx :=
  mkCtx (req_method c) (req_path c) (req_user c)
        (mkSession (Some p)) (res_locals_user c).

Definition set_locals_user (u : option User) (c : Ctx) : Ctx :=
  mkCtx (req_method c) (req_path c) (req_user c) (req_session c) u.

Inductive Response :=
| Redirect (location : string)     (* res.redirect(location) *)
| Handled (controller : string)    (* a controller answered *)
| Diverted (gate : string)         (* a gate redirected or halted the chain *)
| Served (what : string)           (* a third-party layer answered *)
| NotFound                         (* no layer answered *)
| ErrorPage (status : nat).        (* errorHandler() rendered next(err) *)

(** What a layer does with the chain. *)
Inductive Flow :=
| Next                      (* next() *)
| Respond (r : Response)    (* the response was sent, the chain stops *)
| Raise (status : nat).     (* next(err): skip to the error handler *)

(** What the pipeline records about a request: which validations, gates
    and handlers were invoked, in order. *)
Inductive Event :=
| CsrfValidation                  (* lusca.csrf()(req, res, next) was called *)
| GateCheck (gate : string)       (* a gate of config/passport was called *)
| Reached (controller : string)   (* a controller function was called *)
| Called (collaborator : string). (* another third-party layer was called *)

(** ** The monad of a layer

    State [Ctx] (the mutable [req]/[res]), a write-only log of [Event]s,
    and a result. *)

Definition M (A : Type) : Type := Ctx -> Ctx * list Event * A.

Definition ret {A} (a : A) : M A := fun c => (c, [], a).

Definition bind {A B} (m : M A) (k : A -> M B) : M B :=
  fun c =>
    let '(c1, l1, a) := m c in
    let '(c2, l2, b) := k a c1 in
    (c2, (l1 ++ l2)%list, b).

Definition get : M Ctx := fun c => (c, [], c).

Definition modify (f : Ctx -> Ctx) : M unit := fun c => (f c, [], tt).

Definition tell (e : Event) : M unit := fun c => (c, [e], tt).

Declare Scope layer_scope.
Delimit Scope layer_scope with layer.
Notation "x <- m ;; k" := (bind m (fun x => k))
  (at level 61, m at next level, right associativity) : layer_scope.
Notation "m ;;; k" := (bind m (fun _ => k))
  (at level 61, right associativity) : layer_scope.

Definition Middleware : Type := M Flow.

(** A collaborator sees [req]/[res] but not the log. *)
Definition External : Type := Ctx -> Ctx * Flow.

Definition call (name : Event) (f : External) : Middleware :=
  (tell name ;;;
   fun c => let (c', r) := f c in (c', [], r))%layer.

Definition final_ctx {A} (r : Ctx * list Event * A) : Ctx := fst (fst r).
Definition events {A} (r : Ctx * list Event * A) : list Event := snd (fst r).
Definition result {A} (r : Ctx * list Event * A) : A := snd r.

(** ** First-party middleware *)

Definition upload_path : string := "/api/api/upload".
Definition login_path : string := "/api/login".
Definition signup_path : string := "/api/signup".
Definition account_path : string := "/api/account".

(** Lines 91-97.  [csrf] is [lusca.csrf()]. *)
Definition conditional_csrf (csrf : External) : Middleware :=
  (c <- get ;;
   if String.eqb (req_path c) upload_path
   then ret Next
   else call CsrfValidation csrf)%layer.

(** Lines 100-103. *)
Definition expose_user : Middleware :=
  (c <- get ;;
   modify (set_locals_user (req_user c)) ;;;
   ret Next)%layer.

(** The first branch of lines 106-110. *)
Definition capture_anonymous (c : Ctx) : bool :=
  match req_user c with None => true | Some _ => false end
  && negb (String.eqb (req_path c) login_path)
  && negb (String.eqb (req_path c) signup_path)
  && negb (Str.starts_with "/auth" (req_path c))
  && negb (Str.contains_char Str.dot (req_path c)).

(** The second branch, lines 112-113. *)
Definition capture_account (c : Ctx) : bool :=
  match req_user c with Some _ => true | None => false end
  && String.eqb (req_path c) account_path.

(** Lines 104-117. *)
Definition remember_returnTo : Middleware :=
  (c <- get ;;
   (if capture_anonymous c then modify (set_returnTo (req_path c))
    else if capture_account c then modify (set_returnTo (req_path c))
    else ret tt) ;;;
   ret Next)%layer.

(** ** The route table (lines 124-222) *)

(** The callables that appear in a route registration. *)
Inductive Step :=
| IsAuthenticated                      (* passportConfig.isAuthenticated *)
| IsAuthorized                         (* passportConfig.isAuthorized *)
| UploadSingle (field : string)        (* upload.single(field) *)
| Authenticate (strategy : string) (failureRedirect : option string)
                                       (* passport.authenticate(strategy, {..}) *)
| Authorize (strategy : string) (failureRedirect : option string)
                                       (* passport.authorize(strategy, {..}) *)
| Controller (name : string)           (* xController.name *)
| RedirectBack (fallback : string)     (* res.redirect(req.session.returnTo || fallback) *)
| RedirectTo (target : string).        (* res.redirect(target) *)

Record Route := mkRoute {
  r_method : Method;
  r_path : string;
  r_chain : list Step
}.

Definition get_ (p : string) (chain : list Step) : Route := mkRoute GET p chain.
Definition post_ (p : string) (chain : list Step) : Route := mkRoute POST p chain.

Definition primary_routes : list Route :=
  [ get_ "/" [Controller "homeController.index"];
    get_ "/api/" [Controller "homeController.index"];
    get_ "/api/login" [Controller "userController.getLogin"];
    post_ "/api/login" [Controller "userController.postLogin"];
    get_ "/api/logout" [Controller "userController.logout"];
    get_ "/api/forgot" [Controller "userController.getForgot"];
    post_ "/api/forgot" [Controller "userController.postForgot"];
    get_ "/api/reset/:token" [Controller "userController.getReset"];
    post_ "/api/reset/:token" [Controller "userController.postReset"];
    get_ "/api/signup" [Controller "userController.getSignup"];
    post_ "/api/signup" [Controller "userController.postSignup"];
    get_ "/api/contact" [Controller "contactController.getContact"];
    post_ "/api/contact" [Controller "contactController.postContact"];
    get_ "/api/account" [IsAuthenticated; Controller "userController.getAccount"];
    post_ "/api/account/profile" [IsAuthenticated; Controller "userController.postUpdateProfile"];
    post_ "/api/account/password" [IsAuthenticated; Controller "userController.postUpdatePassword"];
    post_ "/api/account/delete" [IsAuthenticated; Controller "userController.postDeleteAccount"];
    get_ "/api/account/unlink/:provider" [IsAuthenticated; Controller "userController.getOauthUnlink"] ].

Definition api_routes : list Route :=
  [ get_ "/api/api" [Controller "apiController.getApi"];
    get_ "/api/api/lastfm" [Controller "apiController.getLastfm"];
    get_ "/api/api/nyt" [Controller "apiController.getNewYorkTimes"];
    get_ "/api/api/aviary" [Controller "apiController.getAviary"];
    get_ "/api/api/steam" [IsAuthenticated; IsAuthorized; Controller "apiController.getSteam"];
    get_ "/api/api/stripe" [Controller "apiController.getStripe"];
    post_ "/api/api/stripe" [Controller "apiController.postStripe"];
    get_ "/api/api/scraping" [Controller "apiController.getScraping"];
    get_ "/api/api/twilio" [Controller "apiController.getTwilio"];
    post_ "/api/api/twilio" [Controller "apiController.postTwilio"];
    get_ "/api/api/clockwork" [Controller "apiController.getClockwork"];
    post_ "/api/api/clockwork" [Controller "apiController.postClockwork"];
    get_ "/api/api/foursquare" [IsAuthenticated; IsAuthorized; Controller "apiController.getFoursquare"];
    get_ "/api/api/tumblr" [IsAuthenticated; IsAuthorized; Controller "apiController.getTumblr"];
    get_ "/api/api/facebook" [IsAuthenticated; IsAuthorized; Controller "apiController.getFacebook"];
    get_ "/api/api/github" [IsAuthenticated; IsAuthorized; Controller "apiController.getGithub"];
    get_ "/api/api/twitter" [IsAuthenticated; IsAuthorized; Controller "apiController.getTwitter"];
    post_ "/api/api/twitter" [IsAuthenticated; IsAuthorized; Controller "apiController.postTwitter"];
    get_ "/api/api/linkedin" [IsAuthenticated; IsAuthorized; Controller "apiController.getLinkedin"];
    get_ "/api/api/instagram" [IsAuthenticated; IsAuthorized; Controller "apiController.getInstagram"];
    get_ "/api/api/paypal" [Controller "apiController.getPayPal"];
    get_ "/api/api/paypal/success" [Controller "apiController.getPayPalSuccess"];
    get_ "/api/api/paypal/cancel" [Controller "apiController.getPayPalCancel"];
    get_ "/api/api/lob" [Controller "apiController.getLob"];
    get_ "/api/api/upload" [Controller "apiController.getFileUpload"];
    post_ "/api/api/upload" [UploadSingle "myFile"; Controller "apiController.postFileUpload"];
    get_ "/api/api/pinterest" [IsAuthenticated; IsAuthorized; Controller "apiController.getPinterest"];
    post_ "/api/api/pinterest" [IsAuthenticated; IsAuthorized; Controller "apiController.postPinterest"];
    get_ "/api/api/google-maps" [Controller "apiController.getGoogleMaps"] ].

(** OAuth authentication routes (sign in), lines 179-202.  The [scope] and
    [state] options of the entry routes do not affect the chain and are
    left out. *)
Definition signin_routes : list Route :=
  [ get_ "/api/auth/instagram" [Authenticate "instagram" None];
    get_ "/api/auth/instagram/callback"
      [Authenticate "instagram" (Some "/api/login"); RedirectBack "/api/"];
    get_ "/api/auth/facebook" [Authenticate "facebook" None];
    get_ "/api/auth/facebook/callback"
      [Authenticate "facebook" (Some "/api/login"); RedirectBack "/api/"];
    get_ "/api/auth/github" [Authenticate "github" None];
    get_ "/api/auth/github/callback"
      [Authenticate "github" (Some "/api/login"); RedirectBack "/api/"];
    get_ "/api/auth/google" [Authenticate "google" None];
    get_ "/api/auth/google/callback"
      [Authenticate "google" (Some "/api/login"); RedirectBack "/api/"];
    get_ "/api/auth/twitter" [Authenticate "twitter" None];
    get_ "/api/auth/twitter/callback"
      [Authenticate "twitter" (Some "/api/login"); RedirectBack "/api/"];
    get_ "/api/auth/linkedin" [Authenticate "linkedin" None];
    get_ "/api/auth/linkedin/callback"
      [Authenticate "linkedin" (Some "/api/login"); RedirectBack "/api/"] ].

(** OAuth authorization routes (API examples), lines 207-222. *)
Definition authorization_routes : list Route :=
  [ get_ "/api/auth/foursquare" [Authorize "foursquare" None];
    get_ "/api/auth/foursquare/callback"
      [Authorize "foursquare" (Some "/api/api"); RedirectTo "/api/api/foursquare"];
    get_ "/api/auth/tumblr" [Authorize "tumblr" None];
    get_ "/api/auth/tumblr/callback"
      [Authorize "tumblr" (Some "/api/api"); RedirectTo "/api/api/tumblr"];
    get_ "/api/auth/steam" [Authorize "openid" None];
    get_ "/api/auth/steam/callback"
      [Authorize "openid" (Some "/api/login"); RedirectBack "/api/"];
    get_ "/api/auth/pinterest" [Authorize "pinterest" None];
    get_ "/api/auth/pinterest/callback"
      [Authorize "pinterest" (Some "/api/login"); RedirectTo "/api/api/pinterest"] ].

Definition routes : list Route :=
  primary_routes ++ api_routes ++ signin_routes ++ authorization_routes.

(** The path the first registration (line 124) serves the home page at. *)
Definition site_root : string := "/".

(** ** Collaborators *)

(** The code [index.js] calls but does not contain. *)
Record Collaborators := mkCollaborators {
  lusca_csrf : External;                                   (* lusca.csrf() *)
  lusca_xframe : string -> External;                       (* lusca.xframe(v) *)
  lusca_xssProtection : bool -> External;                  (* lusca.xssProtection(b) *)
  express_static : External;                               (* express.static(public) *)
  express_match : Route -> Ctx -> bool;                    (* does the router select the route *)
  passport_authenticate : string -> option string -> External;
  passport_authorize : string -> option string -> External;
  multer_single : string -> External;                      (* upload.single(field) *)
  route_service : string -> string     (* the third-party service a route path targets *)
}.

(** Modelled from the spec: [isAuthenticated] of [config/passport], which
    is not part of [src/].  Section 4.3: the check is "principal present";
    on failure the gate redirects or halts the chain, on success it calls
    through unchanged. *)
Definition isAuthenticated : Middleware :=
  (tell (GateCheck "isAuthenticated") ;;;
   c <- get ;;
   match req_user c with
   | Some _ => ret Next
   | None => ret (Respond (Diverted "isAuthenticated"))
   end)%layer.

(** Modelled from the spec: the token test of [isAuthorized].  Section 4.3:
    the principal "holds a valid provider access token for the specific
    third-party service the route targets". *)
Definition holds_token (service : string) (u : User) : bool :=
  existsb (String.eqb service) (user_tokens u).

(** Modelled from the spec: [isAuthorized] of [config/passport], which is
    not part of [src/].  Section 4.3: "principal present AND holds a valid
    provider access token"; on failure the gate redirects or halts the
    chain, on success it calls through unchanged. *)
Definition isAuthorized (service_of : string -> string) : Middleware :=
  (tell (GateCheck "isAuthorized") ;;;
   c <- get ;;
   match req_user c with
   | Some u =>
       if holds_token (service_of (req_path c)) u
       then ret Next
       else ret (Respond (Diverted "isAuthorized"))
   | None => ret (Respond (Diverted "isAuthorized"))
   end)%layer.

(** The inline callback [(req, res) => res.redirect(req.session.returnTo || fallback)]. *)
Definition redirect_back (fallback : string) : Middleware :=
  (c <- get ;;
   ret (Respond (Redirect (Str.or_else (returnTo (req_session c)) fallback))))%layer.

Section Pipeline.

Variable ext : Collaborators.

(** One callable of a route chain.  A controller is the terminal handler
    of its route. *)
Definition step (s : Step) : Middleware :=
  match s with
  | IsAuthenticated => isAuthenticated
  | IsAuthorized => isAuthorized (route_service ext)
  | UploadSingle field => call (Called "multer.single") (multer_single ext field)
  | Authenticate strategy failure =>
      call (Called "passport.authenticate") (passport_authenticate ext strategy failure)
  | Authorize strategy failure =>
      call (Called "passport.authorize") (passport_authorize ext strategy failure)
  | Controller name =>
      (tell (Reached name) ;;; ret (Respond (Handled name)))%layer
  | RedirectBack fallback => redirect_back fallback
  | RedirectTo target => ret (Respond (Redirect target))
  end.

(** Express runs the callables of a registration in order; each one runs
    only if the one before called [next()]. *)
Fixpoint run_chain (chain : list Step) : Middleware :=
  match chain with
  | [] => ret Next
  | s :: rest =>
      (f <- step s ;;
       match f with
       | Next => run_chain rest
       | _ => ret f
       end)%layer
  end.

(** The router: registrations are tried in registration order. *)
Fixpoint dispatch (rs : list Route) : Middleware :=
  match rs with
  | [] => ret Next
  | r :: rest =>
      (c <- get ;;
       if express_match ext r c
       then (f <- run_chain (r_chain r) ;;
             match f with
             | Next => dispatch rest
             | _ => ret f
             end)
       else dispatch rest)%layer
  end.

(** [app.use] layers run in registration order until one does not call
    [next()]. *)
Fixpoint run_layers (ls : list Middleware) : Middleware :=
  match ls with
  | [] => ret Next
  | l :: rest =>
      (f <- l ;;
       match f with
       | Next => run_layers rest
       | _ => ret f
       end)%layer
  end.

(** Lines 91-222 in registration order.  The context a request enters
    with is the one lines 68-90 hand over: [req.session] attached and
    [req.user] populated by the session and passport layers. *)
Definition layers : list Middleware :=
  [ conditional_csrf (lusca_csrf ext);
    call (Called "lusca.xframe") (lusca_xframe ext "SAMEORIGIN");
    call (Called "lusca.xssProtection") (lusca_xssProtection ext true);
    expose_user;
    remember_returnTo;
    call (Called "express.static") (express_static ext);
    dispatch routes ].

(** The application: the layers, then [errorHandler()] (line 224) for
    [next(err)] and Express's default answer when nothing responded. *)
Definition app : M Response :=
  (f <- run_layers layers ;;
   match f with
   | Respond r => ret r
   | Raise status => ret (ErrorPage status)
   | Next => ret NotFound
   end)%layer.

End Pipeline.

(** ** A reference set of collaborators

    Executable stand-ins, used to run the pipeline on concrete requests. *)

Module Reference.

Definition pass : External := fun c => (c, Next).

(** The methods lusca's [csrf()] lets through without a token. *)
Definition safe_method (m : Method) : bool :=
  match m with GET | HEAD | OPTIONS => true | _ => false end.

(** [csrf()] when no request carries a token. *)
Definition csrf : External :=
  fun c => if safe_method (req_method c) then (c, Next) else (c, Raise 403).

Fixpoint segments_from (cur s : string) : list string :=
  match s with
  | EmptyString => [cur]
  | String a rest =>
      if Ascii.eqb a "/"%char then cur :: segments_from "" rest
      else segments_from (cur ++ String a "") rest
  end.

Definition segments (s : string) : list string := segments_from "" s.

Definition segment_match (pat seg : string) : bool :=
  match pat with
  | String ":" _ => Str.truthy seg
  | _ => String.eqb pat seg
  end.

Fixpoint segments_match (pats segs : list string) : bool :=
  match pats, segs with
  | [], [] => true
  | p :: pats', s :: segs' => segment_match p s && segments_match pats' segs'
  | _, _ => false
  end.

(** A [get] registration also answers HEAD. *)
Definition method_match (registered requested : Method) : bool :=
  Method_eqb registered requested
  || (Method_eqb registered GET && Method_eqb requested HEAD).

Definition route_match (r : Route) (c : Ctx) : bool :=
  method_match (r_method r) (req_method c)
  && segments_match (segments (r_path r)) (segments (req_path c)).

Definition visitor : User := mkUser "visitor" [].

Definition set_user (u : User) (c : Ctx) : Ctx :=
  mkCtx (req_method c) (req_path c) (Some u) (req_session c) (res_locals_user c).

(** passport on a callback: with [grant] the provider vouches for the
    visitor and the layer calls through; without, it redirects to
    [failureRedirect]. *)
Definition passport (grant : bool) (strategy : string) (failure : option string)
  : External :=
  fun c =>
    if grant then
      (match req_user c with Some _ => c | None => set_user visitor c end, Next)
    else (c, Respond (Redirect (Str.or_else failure "/"))).

Definition last_segment (p : string) : string := last (segments p) "".

Definition collaborators (grant : bool) : Collaborators :=
  {| lusca_csrf := csrf;
     lusca_xframe := fun _ => pass;
     lusca_xssProtection := fun _ => pass;
     express_static := pass;
     express_match := route_match;
     passport_authenticate := passport grant;
     passport_authorize := passport grant;
     multer_single := fun _ => pass;
     route_service := last_segment |}.

Definition request (m : Method) (p : string) (u : option User) (back : option string)
  : Ctx :=
  mkCtx m p u (mkSession back) None.

End Reference.

(** ** The MongoDB connection block (lines 51-59) *)

Module Startup.

Inductive Output :=
| ConsoleError (err : string)                    (* console.error(err) *)
| ConsoleLog (fmt : string) (args : list string). (* console.log(fmt, ..args) *)

(** [Threw err]: an ['error'] event found no listener; the emitter throws
    the error and nothing catches it. *)
Inductive Status :=
| Running
| Exited
| Threw (err : string).

(** The process as the block sees it: the state of the default mongoose
    connection, the environment, and what the block adds to it:
    connection attempts, its ['error'] listener, console output, exit. *)
Record Process := mkProcess {
  readyState : nat;
  env : string -> option string;
  connect_calls : list (option string);
  on_error : bool;
  console : list Output;
  status : Status
}.

(** [a || b] on two environment variables. *)
Definition or_env (a b : option string) : option string :=
  match a with
  | Some s => if Str.truthy s then Some s else b
  | None => b
  end.

Definition mongo_uri (p : Process) : option string :=
  or_env (env p "MONGODB_URI") (env p "MONGOLAB_URI").

(** The cross mark U+2717 of line 56, as its UTF-8 bytes. *)
Definition cross_mark : string :=
  String (ascii_of_nat 226) (String (ascii_of_nat 156)
    (String (ascii_of_nat 151) EmptyString)).

Definition connection_error_message : string :=
  "%s MongoDB connection error. Please make sure MongoDB is running.".

(** Lines 51-59: executed once when the module is loaded.  The assignment
    to [mongoose.Promise] has no effect on what follows and is left out. *)
Definition connect_block (p : Process) : Process :=
  if Nat.eqb (readyState p) 1 then p
  else mkProcess (readyState p) (env p)
         (connect_calls p ++ [mongo_uri p]) true (console p) (status p).

(** Lines 54-58: the body of the listener.  [red] is [chalk.red]; what it
    wraps the text in depends on the terminal. *)
Definition error_listener (red : string -> string) (err : string) (p : Process)
  : Process :=
  mkProcess (readyState p) (env p) (connect_calls p) (on_error p)
    (console p ++ [ConsoleError err;
                   ConsoleLog connection_error_message [red cross_mark]])
    Exited.

(** The connection emits ['error'].  A process that has ended does
    nothing; a live one runs the listener of the block when it is
    installed, and otherwise the emitter throws the error. *)
Definition emit_error (red : string -> string) (err : string) (p : Process)
  : Process :=
  match status p with
  | Running =>
      if on_error p then error_listener red err p
      else mkProcess (readyState p) (env p) (connect_calls p) (on_error p)
             (console p) (Threw err)
  | _ => p
  end.

Definition emit_errors (red : string -> string) (errs : list string) (p : Process)
  : Process :=
  fold_left (fun q e => emit_error red e q) errs p.

Definition fresh (state : nat) (e : string -> option string) : Process :=
  mkProcess state e [] false [] Running.

End Startup.

(** ** Vocabulary of the properties *)

(** The return-to middleware writes [req.session.returnTo]. *)
Definition captures (c : Ctx) : bool := capture_anonymous c || capture_account c.

Definition with_session (s : Session) (c : Ctx) : Ctx :=
  mkCtx (req_method c) (req_path c) (req_user c) s (res_locals_user c).

(** The session after the return-to middleware served request [c] on
    session [s]. *)
Definition track (s : Session) (c : Ctx) : Session :=
  req_session (final_ctx (remember_returnTo (with_session s c))).

(** A session serving requests one after the other. *)
Definition track_all (reqs : list Ctx) (s : Session) : Session :=
  fold_left track reqs s.

(** Methods other than the ones lusca's [csrf()] lets through unchecked. *)
Definition mutating (m : Method) : bool :=
  match m with
  | GET | HEAD | OPTIONS => false
  | POST | PUT | PATCH | DELETE => true
  end.

(** What the pipeline expects of lusca: [csrf()] refuses a mutating request
    whose token is missing or invalid ([token_ok] is lusca's own test) by
    passing a 403 error to [next]. *)
Definition csrf_contract (csrf : External) (token_ok : Ctx -> bool) : Prop :=
  forall c, mutating (req_method c) = true -> token_ok c = false ->
            exists c', csrf c = (c', Raise 403).

(** The registration for a method and a path, as written in the table. *)
Definition registered (m : Method) (p : string) : option Route :=
  find (fun r => Method_eqb (r_method r) m && String.eqb (r_path r) p) routes.

Definition signin_providers : list string :=
  ["instagram"; "facebook"; "github"; "google"; "twitter"; "linkedin"].

Definition authorization_providers : list string :=
  ["foursquare"; "tumblr"; "steam"; "pinterest"].

Definition callback_path (provider : string) : string :=
  "/api/auth/" ++ provider ++ "/callback".

Definition callback_chain (provider : string) : option (list Step) :=
  option_map r_chain (registered GET (callback_path provider)).

(** The first callable of the chain (passport) called [next()], leaving the
    context [c']. *)
Definition passes_first (ext : Collaborators) (chain : list Step) (c c' : Ctx) : Prop :=
  match chain with
  | s :: _ => result (step ext s c) = Next /\ final_ctx (step ext s c) = c'
  | [] => False
  end.

(** The provider demonstration endpoints behind both gates. *)
Definition provider_demo_paths : list string :=
  [ "/api/api/steam"; "/api/api/foursquare"; "/api/api/tumblr";
    "/api/api/facebook"; "/api/api/github"; "/api/api/twitter";
    "/api/api/linkedin"; "/api/api/instagram"; "/api/api/pinterest" ].

Definition is_provider_demo (r : Route) : bool :=
  existsb (String.eqb (r_path r)) provider_demo_paths.

(** The request carries a principal holding a token for the service its
    path targets. *)
Definition has_provider_token (ext : Collaborators) (c : Ctx) : bool :=
  match req_user c with
  | Some u => holds_token (route_service ext (req_path c)) u
  | None => false
  end.

Definition is_reached (e : Event) : bool :=
  match e with Reached _ => true | _ => false end.

Definition is_csrf_validation (e : Event) : bool :=
  match e with CsrfValidation => true | _ => false end.

(** A chain that is exactly the two gates and then a controller. *)
Definition gates_then_controller (chain : list Step) : bool :=
  match chain with
  | [IsAuthenticated; IsAuthorized; Controller _] => true
  | _ => false
  end.

(** The paths of the OAuth registrations (lines 179-222). *)
Definition oauth_paths : list string :=
  map r_path (signin_routes ++ authorization_routes).

(** [silent P m]: no event of [m] satisfies [P], from any context. *)
Definition silent {A} (P : Event -> bool) (m : M A) : Prop :=
  forall c, existsb P (events (m c)) = false.

(** ** Settings (lines 64-65)

    [app.set('host', ..)] and [app.set('port', ..)] read the environment
    with [||] fallbacks; the port falls back to the number 3000, the
    variables are strings. *)

Module Settings.

Inductive Value :=
| Text (s : string)
| Number (n : nat).

(** [process.env.OPENSHIFT_NODEJS_IP || '0.0.0.0'] *)
Definition host (env : string -> option string) : string :=
  Str.or_else (env "OPENSHIFT_NODEJS_IP") "0.0.0.0".

(** [process.env.PORT || process.env.OPENSHIFT_NODEJS_PORT || 3000] *)
Definition port (env : string -> option string) : Value :=
  match Startup.or_env (env "PORT") (env "OPENSHIFT_NODEJS_PORT") with
  | Some s => if Str.truthy s then Text s else Number 3000
  | None => Number 3000
  end.

(** A variable that is set to a non-empty string. *)
Definition provided (env : string -> option string) (k : string) : bool :=
  match env k with Some s => Str.truthy s | None => false end.

End Settings.

(** ** Vocabulary of the further properties *)

(** The path of the last request of [reqs] that the return-to middleware
    captures, if there is one. *)
Definition last_capture (reqs : list Ctx) : option string :=
  option_map req_path (find captures (rev reqs)).

(** A stored value that the first branch of the middleware would itself
    accept: not the login or signup path, not under [/auth], no dot. *)
Definition acceptable (p : string) : bool :=
  negb (String.eqb p login_path)
  && negb (String.eqb p signup_path)
  && negb (Str.starts_with "/auth" p)
  && negb (Str.contains_char Str.dot p).

Definition slot_acceptable (s : Session) : bool :=
  match returnTo s with
  | Some p => acceptable p
  | None => true
  end.

(** The account registrations (lines 137-141). *)
Definition is_account_route (r : Route) : bool :=
  Str.starts_with account_path (r_path r).


Definition is_IsAuthorized (s : Step) : bool :=
  match s with IsAuthorized => true | _ => false end.

Definition is_authorized_check (e : Event) : bool :=
  match e with
  | GateCheck g => String.eqb g "isAuthorized"
  | _ => false
  end.

(** A chain in which [isAuthorized] is either absent or directly preceded
    by [isAuthenticated] at the head of the chain. *)
Definition authorized_after_authenticated (chain : list Step) : bool :=
  negb (existsb is_IsAuthorized chain) || gates_then_controller chain.

(** Lines 68-90: the eleven [app.use] layers registered before the CSRF
    middleware, in registration order.  All are third-party. *)
Definition earlier_names : list string :=
  [ "expressStatusMonitor"; "compression"; "sass"; "logger";
    "bodyParser.json"; "bodyParser.urlencoded"; "expressValidator";
    "session"; "passport.initialize"; "passport.session"; "flash" ].

Definition earlier_layers (third_party : string -> External) : list Middleware :=
  map (fun name => call (Called name) (third_party name)) earlier_names.

(** Lines 68-222: every [app.use] layer and the router. *)
Definition all_layers (ext : Collaborators) (third_party : string -> External)
  : list Middleware :=
  earlier_layers third_party ++ layers ext.

(** How often CSRF validation was invoked. *)
Definition count_csrf (log : list Event) : nat :=
  length (filter is_csrf_validation log).

Definition is_gate (s : Step) : bool :=
  match s with IsAuthenticated | IsAuthorized => true | _ => false end.

(** No registration answers GET on the path. *)
Definition post_only (p : string) : bool :=
  match registered GET p with Some _ => false | None => true end.

(** * Properties *)

(** ** The return-to middleware *)

Lemma remember_returnTo_run (c : Ctx) :
  remember_returnTo c =
  (if captures c then set_returnTo (req_path c) c else c, [], Next).
Proof.
  unfold remember_returnTo, captures, bind, get, modify, ret.
  destruct (capture_anonymous c); simpl; [reflexivity|].
  destruct (capture_account c); reflexivity.
Qed.

Lemma returnTo_after (c : Ctx) :
  returnTo (req_session (final_ctx (remember_returnTo c))) =
  if captures c then Some (req_path c) else returnTo (req_session c).
Proof.
  rewrite remember_returnTo_run. unfold final_ctx; simpl.
  destruct (captures c); reflexivity.
Qed.

Lemma remember_returnTo_calls_next (c : Ctx) :
  result (remember_returnTo c) = Next /\ events (remember_returnTo c) = [].
Proof. rewrite remember_returnTo_run. split; reflexivity. Qed.

(** The two conditions of the source, spelled out. *)
Lemma capture_anonymous_iff (c : Ctx) :
  capture_anonymous c = true <->
  req_user c = None /\ req_path c <> login_path /\ req_path c <> signup_path
  /\ Str.starts_with "/auth" (req_path c) = false
  /\ Str.contains_char Str.dot (req_path c) = false.
Proof.
  unfold capture_anonymous.
  rewrite !andb_true_iff, !negb_true_iff, !String.eqb_neq.
  destruct (req_user c); split; intros H; repeat split; try tauto;
    try discriminate; destruct H as [H _]; try discriminate;
    repeat match goal with H : _ /\ _ |- _ => destruct H end; discriminate.
Qed.

Lemma capture_account_iff (c : Ctx) :
  capture_account c = true <-> req_user c <> None /\ req_path c = account_path.
Proof.
  unfold capture_account. rewrite andb_true_iff, String.eqb_eq.
  destruct (req_user c); split; intros [H1 H2]; split;
    try assumption; try discriminate; congruence.
Qed.

(** The middleware stores the path from every earlier session exactly when
    one of its two conditions holds. *)
Lemma remember_returnTo_exactly_when (c : Ctx) :
  (forall s, returnTo (track s c) = Some (req_path c)) <-> captures c = true.
Proof.
  unfold track. split.
  - intros H. specialize (H (mkSession None)).
    rewrite returnTo_after in H.
    destruct (captures (with_session _ c)) eqn:E; [exact E | discriminate].
  - intros H s. rewrite returnTo_after.
    change (captures (with_session s c)) with (captures c).
    rewrite H. reflexivity.
Qed.

(** No registered OAuth path starts with [/auth]: the test of line 109
    excludes none of them. *)
Lemma oauth_paths_not_excluded :
  forallb (fun p => negb (Str.starts_with "/auth" p)
                    && negb (Str.contains_char Str.dot p)
                    && negb (String.eqb p login_path)
                    && negb (String.eqb p signup_path)) oauth_paths = true.
Proof. vm_compute. reflexivity. Qed.

(** C1 (the code at the failing inputs): an unauthenticated request to any
    of the OAuth paths registered on lines 179-222, all of which are under
    [/api/auth/], has its own path stored in [session.returnTo]: the test
    [/^\/auth/] of line 109 does not see the [/api] prefix that the login
    and signup tests of lines 107-108 carry. *)
Theorem anonymous_oauth_request_is_captured (c : Ctx) :
  In (req_path c) oauth_paths ->
  req_user c = None ->
  capture_anonymous c = true
  /\ returnTo (req_session (final_ctx (remember_returnTo c))) = Some (req_path c).
Proof.
  intros Hin Hu.
  assert (Hc : capture_anonymous c = true).
  { pose proof oauth_paths_not_excluded as H.
    rewrite forallb_forall in H. specialize (H _ Hin).
    rewrite !andb_true_iff in H. destruct H as [[[H1 H2] H3] H4].
    unfold capture_anonymous. rewrite Hu, H1, H2, H3, H4. reflexivity. }
  split; [exact Hc|].
  rewrite returnTo_after. unfold captures. rewrite Hc. reflexivity.
Qed.

Lemma anonymous_oauth_request_is_captured_witness :
  let c := Reference.request GET "/api/auth/github" None None in
  capture_anonymous c = true
  /\ returnTo (req_session (final_ctx (remember_returnTo c))) = Some "/api/auth/github".
Proof.
  apply (anonymous_oauth_request_is_captured
           (Reference.request GET "/api/auth/github" None None)).
  - vm_compute. tauto.
  - reflexivity.
Defined.

(** With the reference collaborators: a visitor whose session remembers
    the account page and who signs in through GitHub is sent to the
    callback address itself, because the callback request overwrote the
    slot before passport ran. *)
Example oauth_signin_loops_back :
  result (app (Reference.collaborators true)
              (Reference.request GET "/api/auth/github/callback" None (Some "/api/account")))
  = Redirect "/api/auth/github/callback".
Proof. vm_compute. reflexivity. Qed.

(** The scenario of the specification, first half: an unauthenticated GET
    of the account page is diverted by the gate, and the session remembers
    the page. *)
Example anonymous_account_request :
  app (Reference.collaborators true) (Reference.request GET "/api/account" None None)
  = (Reference.request GET "/api/account" None (Some "/api/account"),
     [CsrfValidation; Called "lusca.xframe"; Called "lusca.xssProtection";
      Called "express.static"; GateCheck "isAuthenticated"],
     Diverted "isAuthenticated").
Proof. vm_compute. reflexivity. Qed.

Lemma track_captured (s : Session) (c : Ctx) :
  captures c = true -> track s c = mkSession (Some (req_path c)).
Proof.
  intros H. unfold track. rewrite remember_returnTo_run.
  change (captures (with_session s c)) with (captures c). rewrite H.
  reflexivity.
Qed.

Lemma track_skipped (s : Session) (c : Ctx) :
  captures c = false -> track s c = s.
Proof.
  intros H. unfold track. rewrite remember_returnTo_run.
  change (captures (with_session s c)) with (captures c). rewrite H.
  reflexivity.
Qed.

Lemma track_all_snoc (reqs : list Ctx) (c : Ctx) (s : Session) :
  track_all (reqs ++ [c]) s = track (track_all reqs s) c.
Proof. unfold track_all. rewrite fold_left_app. reflexivity. Qed.

(** After any number of requests on one session, the slot holds the path of
    the last request that was captured, whatever came before it. *)
Lemma track_all_last_capture (before after : list Ctx) (c : Ctx) (s : Session) :
  captures c = true ->
  forallb (fun r => negb (captures r)) after = true ->
  returnTo (track_all (before ++ c :: after) s) = Some (req_path c).
Proof.
  intros Hc. revert before.
  induction after as [|a after IH] using rev_ind; intros before Hafter.
  - rewrite track_all_snoc, track_captured by exact Hc. reflexivity.
  - rewrite forallb_app in Hafter. apply andb_true_iff in Hafter.
    destruct Hafter as [Hafter Ha]. simpl in Ha.
    rewrite andb_true_r, negb_true_iff in Ha.
    rewrite app_comm_cons, app_assoc, track_all_snoc, track_skipped by exact Ha.
    apply IH. exact Hafter.
Qed.

(** C6: [session.returnTo] is one slot that a capture overwrites.  When two
    requests on the same session both satisfy a capture condition, the slot
    afterwards holds the path of the later one, whatever it held before;
    the path is stored whole, whatever its length, and nothing else is kept
    in the session record. *)
Theorem returnTo_single_slot_overwrite (s : Session) (first later : Ctx) :
  captures first = true ->
  captures later = true ->
  returnTo (track_all [first; later] s) = Some (req_path later)
  /\ track_all [first] s = mkSession (Some (req_path first))
  /\ track_all [first; later] s = mkSession (Some (req_path later)).
Proof.
  intros H1 H2. repeat split.
  - apply (track_all_last_capture [first] [] later s H2). reflexivity.
  - apply track_captured. exact H1.
  - unfold track_all. simpl. apply track_captured. exact H2.
Qed.

Lemma returnTo_single_slot_overwrite_witness :
  returnTo (track_all [Reference.request GET "/api/contact" None None;
                       Reference.request GET "/api/account" (Some Reference.visitor) None]
                      (mkSession (Some "/api/forgot")))
  = Some "/api/account".
Proof.
  apply (returnTo_single_slot_overwrite (mkSession (Some "/api/forgot"))
           (Reference.request GET "/api/contact" None None)
           (Reference.request GET "/api/account" (Some Reference.visitor) None));
    vm_compute; reflexivity.
Defined.

(** The requests the middleware passes over, spelled out. *)
Lemma captures_false_iff (c : Ctx) :
  captures c = false <->
  (req_user c <> None /\ req_path c <> account_path)
  \/ (req_user c = None
      /\ (req_path c = login_path \/ req_path c = signup_path
          \/ Str.starts_with "/auth" (req_path c) = true
          \/ Str.contains_char Str.dot (req_path c) = true)).
Proof.
  unfold captures, capture_anonymous, capture_account.
  destruct (req_user c) as [u|]; simpl.
  - rewrite <- String.eqb_neq. split.
    + intros H. left. split; [discriminate | exact H].
    + intros [[_ H] | [H _]]; [exact H | discriminate].
  - rewrite orb_false_r, !andb_false_iff, !negb_false_iff, !String.eqb_eq.
    split.
    + intros H. right. split; [reflexivity | tauto].
    + intros [[H _] | [_ H]]; [congruence | tauto].
Qed.

(** C8: a request that satisfies neither capture condition, that is an
    authenticated request to a path other than the account page, or an
    unauthenticated request to the login path, the signup path, a path
    that starts with [/auth] or a path with a dot, leaves
    [session.returnTo] as it was; the middleware changes nothing at all and
    calls [next()]. *)
Theorem returnTo_unchanged_without_capture (c : Ctx) :
  (req_user c <> None /\ req_path c <> account_path)
  \/ (req_user c = None
      /\ (req_path c = login_path \/ req_path c = signup_path
          \/ Str.starts_with "/auth" (req_path c) = true
          \/ Str.contains_char Str.dot (req_path c) = true)) ->
  returnTo (req_session (final_ctx (remember_returnTo c))) = returnTo (req_session c)
  /\ remember_returnTo c = (c, [], Next).
Proof.
  intros H. apply captures_false_iff in H.
  rewrite remember_returnTo_run, H. split; reflexivity.
Qed.

Lemma returnTo_unchanged_without_capture_witness :
  let c := Reference.request GET "/api/login" None (Some "/api/contact") in
  returnTo (req_session (final_ctx (remember_returnTo c))) = Some "/api/contact"
  /\ remember_returnTo c = (c, [], Next).
Proof.
  apply (returnTo_unchanged_without_capture
           (Reference.request GET "/api/login" None (Some "/api/contact"))).
  right. split; [reflexivity | left; reflexivity].
Defined.

(** ** The log of a computation *)

Lemma bind_run {A B} (m : M A) (k : A -> M B) (c : Ctx) :
  bind m k c =
  (final_ctx (k (result (m c)) (final_ctx (m c))),
   (events (m c) ++ events (k (result (m c)) (final_ctx (m c))))%list,
   result (k (result (m c)) (final_ctx (m c)))).
Proof.
  unfold bind, final_ctx, events, result.
  destruct (m c) as [[c1 l1] a]; simpl.
  destruct (k a c1) as [[c2 l2] b]; reflexivity.
Qed.

Lemma call_run (name : Event) (f : External) (c : Ctx) :
  call name f c = (fst (f c), [name], snd (f c)).
Proof.
  unfold call, bind, tell. destruct (f c); reflexivity.
Qed.

Section Silent.

Variable P : Event -> bool.

Lemma silent_ret {A} (a : A) : silent P (ret a).
Proof. intros c. reflexivity. Qed.

Lemma silent_get : silent P get.
Proof. intros c. reflexivity. Qed.

Lemma silent_modify (f : Ctx -> Ctx) : silent P (modify f).
Proof. intros c. reflexivity. Qed.

Lemma silent_tell (e : Event) : P e = false -> silent P (tell e).
Proof. intros H c. unfold tell, events; simpl. rewrite H. reflexivity. Qed.

Lemma silent_bind {A B} (m : M A) (k : A -> M B) :
  silent P m -> (forall a, silent P (k a)) -> silent P (bind m k).
Proof.
  intros Hm Hk c. rewrite bind_run. unfold events at 1; simpl.
  rewrite existsb_app, Hm, Hk. reflexivity.
Qed.

Lemma silent_call (name : Event) (f : External) :
  P name = false -> silent P (call name f).
Proof.
  intros H c. rewrite call_run. unfold events; simpl. rewrite H. reflexivity.
Qed.

Lemma silent_flow (f : Flow) (m : Middleware) :
  silent P m ->
  silent P (match f with Next => m | _ => ret f end).
Proof. intros H. destruct f; [exact H | apply silent_ret | apply silent_ret]. Qed.

End Silent.

Ltac silence :=
  repeat match goal with
    | |- silent _ (ret _) => apply silent_ret
    | |- silent _ get => apply silent_get
    | |- silent _ (modify _) => apply silent_modify
    | |- silent _ (call _ _) => apply silent_call; reflexivity
    | |- silent _ (tell _) => apply silent_tell; reflexivity
    | |- silent _ (bind _ _) => apply silent_bind; [| intros ?]
    end.

Section Logs.

Variable ext : Collaborators.

Lemma isAuthenticated_silent P :
  P (GateCheck "isAuthenticated") = false -> silent P isAuthenticated.
Proof.
  intros H. unfold isAuthenticated.
  apply silent_bind; [apply silent_tell; exact H | intros _].
  apply silent_bind; [apply silent_get | intros c].
  destruct (req_user c); apply silent_ret.
Qed.

Lemma isAuthorized_silent P f :
  P (GateCheck "isAuthorized") = false -> silent P (isAuthorized f).
Proof.
  intros H. unfold isAuthorized.
  apply silent_bind; [apply silent_tell; exact H | intros _].
  apply silent_bind; [apply silent_get | intros c].
  destruct (req_user c) as [u|]; [|apply silent_ret].
  destruct (holds_token _ u); apply silent_ret.
Qed.

(** No callable of a route chain invokes CSRF validation. *)
Lemma step_no_csrf (s : Step) : silent is_csrf_validation (step ext s).
Proof.
  destruct s; simpl.
  - apply isAuthenticated_silent; reflexivity.
  - apply isAuthorized_silent; reflexivity.
  - silence.
  - silence.
  - silence.
  - silence.
  - unfold redirect_back. silence.
  - silence.
Qed.

Lemma run_chain_no_csrf (chain : list Step) :
  silent is_csrf_validation (run_chain ext chain).
Proof.
  induction chain as [|s rest IH]; simpl; [apply silent_ret|].
  apply silent_bind; [apply step_no_csrf | intros f].
  apply silent_flow. exact IH.
Qed.

Lemma dispatch_no_csrf (rs : list Route) :
  silent is_csrf_validation (dispatch ext rs).
Proof.
  induction rs as [|r rest IH]; simpl; [apply silent_ret|].
  apply silent_bind; [apply silent_get | intros c].
  destruct (express_match ext r c); [|exact IH].
  apply silent_bind; [apply run_chain_no_csrf | intros f].
  apply silent_flow. exact IH.
Qed.

Lemma run_layers_silent P (ls : list Middleware) :
  Forall (silent P) ls -> silent P (run_layers ls).
Proof.
  induction 1 as [|l rest Hl _ IH]; simpl; [apply silent_ret|].
  apply silent_bind; [exact Hl | intros f].
  apply silent_flow. exact IH.
Qed.

Lemma expose_user_silent P : silent P expose_user.
Proof. unfold expose_user. silence. Qed.

Lemma remember_returnTo_silent P : silent P remember_returnTo.
Proof.
  intros c. rewrite remember_returnTo_run. reflexivity.
Qed.

(** The layers after the CSRF gate never invoke CSRF validation. *)
Lemma later_layers_no_csrf :
  Forall (silent is_csrf_validation) (tl (layers ext)).
Proof.
  unfold layers; cbn [tl].
  repeat apply Forall_cons; try apply Forall_nil.
  - silence.
  - silence.
  - apply expose_user_silent.
  - apply remember_returnTo_silent.
  - silence.
  - apply dispatch_no_csrf.
Qed.

End Logs.

(** ** The CSRF gate *)

Lemma conditional_csrf_run (csrf : External) (c : Ctx) :
  conditional_csrf csrf c =
  if String.eqb (req_path c) upload_path
  then (c, [], Next)
  else (fst (csrf c), [CsrfValidation], snd (csrf c)).
Proof.
  unfold conditional_csrf. rewrite bind_run.
  unfold get, result, final_ctx, events; simpl.
  destruct (String.eqb (req_path c) upload_path); [reflexivity|].
  rewrite call_run. reflexivity.
Qed.

Lemma run_layers_stop (l : Middleware) (rest : list Middleware) (c : Ctx) :
  result (l c) <> Next -> run_layers (l :: rest) c = l c.
Proof.
  intros H. simpl. rewrite bind_run.
  destruct (l c) as [[c1 l1] f]. unfold result, final_ctx, events in *; simpl in *.
  destruct f; [congruence | |]; unfold ret; simpl; rewrite app_nil_r; reflexivity.
Qed.

Lemma run_layers_through (l : Middleware) (rest : list Middleware) (c c1 : Ctx) :
  l c = (c1, [], Next) -> run_layers (l :: rest) c = run_layers rest c1.
Proof.
  intros H. simpl. rewrite bind_run, H.
  unfold result, final_ctx, events; simpl.
  destruct (run_layers rest c1) as [[c2 l2] f]. reflexivity.
Qed.

Lemma app_run (ext : Collaborators) (c : Ctx) :
  app ext c =
  let r := run_layers (layers ext) c in
  (final_ctx r, events r,
   match result r with
   | Respond resp => resp
   | Raise status => ErrorPage status
   | Next => NotFound
   end).
Proof.
  unfold app. rewrite bind_run.
  destruct (run_layers (layers ext) c) as [[c1 l1] f].
  unfold result, final_ctx, events; simpl.
  destruct f; unfold ret; simpl; rewrite app_nil_r; reflexivity.
Qed.

Lemma app_events (ext : Collaborators) (c : Ctx) :
  events (app ext c) = events (run_layers (layers ext) c).
Proof. rewrite app_run. reflexivity. Qed.

(** C2: for a request whose path is the file-upload submission path
    [/api/api/upload] (the path of the [upload.single] registration of line
    171), the CSRF middleware calls [next()] with the request untouched and
    without invoking CSRF validation, whatever validator is installed and
    whatever that validator would have answered; so the request is never
    refused for its token. *)
Theorem upload_path_bypasses_csrf (csrf : External) (c : Ctx) :
  req_path c = upload_path ->
  registered POST (req_path c)
    = Some (post_ upload_path [UploadSingle "myFile";
                               Controller "apiController.postFileUpload"])
  /\ conditional_csrf csrf c = (c, [], Next)
  /\ forall verdict, conditional_csrf (fun x => (x, verdict)) c = (c, [], Next).
Proof.
  intros H. rewrite H. split; [reflexivity|].
  split; [|intros verdict]; rewrite conditional_csrf_run, H; reflexivity.
Qed.

Lemma upload_path_bypasses_csrf_witness :
  conditional_csrf Reference.csrf
    (Reference.request POST "/api/api/upload" None None)
  = (Reference.request POST "/api/api/upload" None None, [], Next).
Proof.
  apply (upload_path_bypasses_csrf Reference.csrf
           (Reference.request POST "/api/api/upload" None None)).
  reflexivity.
Defined.

(** C9: the exemption looks at the path only.  A request of any method,
    GET included, with any principal and any session, whose path equals
    [/api/api/upload] passes the CSRF middleware unvalidated, and CSRF
    validation is not invoked anywhere in the application for it. *)
Theorem csrf_exemption_ignores_method
        (ext : Collaborators) (m : Method) (u : option User) (s : Session)
        (l : option User) :
  let c := mkCtx m "/api/api/upload" u s l in
  conditional_csrf (lusca_csrf ext) c = (c, [], Next)
  /\ existsb is_csrf_validation (events (app ext c)) = false.
Proof.
  intros c.
  assert (E : conditional_csrf (lusca_csrf ext) c = (c, [], Next)).
  { rewrite conditional_csrf_run. reflexivity. }
  split; [exact E|].
  rewrite app_events.
  change (layers ext) with (conditional_csrf (lusca_csrf ext) :: tl (layers ext)).
  rewrite (run_layers_through _ _ c c E).
  apply run_layers_silent. apply later_layers_no_csrf.
Qed.

(** C3: for a request whose path is not the exempted [/api/api/upload], the
    CSRF middleware is exactly the invocation of lusca's validator on the
    request; and when the validator honours its contract (it refuses a
    mutating request without a valid token with a 403 error), such a
    request is answered by the error handler with 403, and no controller
    and no other layer is reached. *)
Theorem csrf_applies_off_upload_path
        (ext : Collaborators) (token_ok : Ctx -> bool) (c : Ctx) :
  csrf_contract (lusca_csrf ext) token_ok ->
  req_path c <> upload_path ->
  conditional_csrf (lusca_csrf ext) c = call CsrfValidation (lusca_csrf ext) c
  /\ (mutating (req_method c) = true -> token_ok c = false ->
      result (app ext c) = ErrorPage 403
      /\ events (app ext c) = [CsrfValidation]
      /\ existsb is_reached (events (app ext c)) = false).
Proof.
  intros Hcontract Hpath.
  apply String.eqb_neq in Hpath.
  assert (E : conditional_csrf (lusca_csrf ext) c
              = call CsrfValidation (lusca_csrf ext) c).
  { rewrite conditional_csrf_run, call_run, Hpath. reflexivity. }
  split; [exact E|].
  intros Hm Htok.
  destruct (Hcontract c Hm Htok) as [c' Hc'].
  assert (R : run_layers (layers ext) c = (c', [CsrfValidation], Raise 403)).
  { change (layers ext) with (conditional_csrf (lusca_csrf ext) :: tl (layers ext)).
    rewrite run_layers_stop.
    - rewrite E, call_run, Hc'. reflexivity.
    - rewrite E, call_run, Hc'. discriminate. }
  rewrite app_run, R. repeat split.
Qed.

Lemma csrf_applies_off_upload_path_witness :
  let c := Reference.request POST "/api/contact" None None in
  result (app (Reference.collaborators true) c) = ErrorPage 403
  /\ events (app (Reference.collaborators true) c) = [CsrfValidation]
  /\ existsb is_reached (events (app (Reference.collaborators true) c)) = false.
Proof.
  apply (csrf_applies_off_upload_path (Reference.collaborators true)
           (fun _ => false)
           (Reference.request POST "/api/contact" None None)).
  - intros x Hm _. exists x. simpl. unfold Reference.csrf.
    destruct (req_method x); try discriminate; reflexivity.
  - vm_compute. discriminate.
  - reflexivity.
  - reflexivity.
Defined.

(** ** OAuth callbacks *)

Lemma run_chain_after_next (ext : Collaborators) (s : Step) (rest : list Step)
      (c c' : Ctx) :
  result (step ext s c) = Next ->
  final_ctx (step ext s c) = c' ->
  result (run_chain ext (s :: rest) c) = result (run_chain ext rest c').
Proof.
  intros Hr Hc. cbn [run_chain]. rewrite bind_run, Hr, Hc. reflexivity.
Qed.

Lemma redirect_back_run (fallback : string) (c : Ctx) :
  redirect_back fallback c =
  (c, [], Respond (Redirect (Str.or_else (returnTo (req_session c)) fallback))).
Proof. reflexivity. Qed.

(** A chain [passport; res.redirect(req.session.returnTo || fallback)]. *)
Lemma callback_redirect_back (ext : Collaborators) (s : Step) (fallback : string)
      (c c' : Ctx) :
  passes_first ext [s; RedirectBack fallback] c c' ->
  result (run_chain ext [s; RedirectBack fallback] c)
  = Respond (Redirect (Str.or_else (returnTo (req_session c')) fallback)).
Proof.
  intros [Hr Hc]. rewrite (run_chain_after_next ext s _ c c' Hr Hc).
  cbn [run_chain step]. rewrite bind_run, redirect_back_run. reflexivity.
Qed.

(** A chain [passport; res.redirect(target)]. *)
Lemma callback_redirect_to (ext : Collaborators) (s : Step) (target : string)
      (c c' : Ctx) :
  passes_first ext [s; RedirectTo target] c c' ->
  result (run_chain ext [s; RedirectTo target] c) = Respond (Redirect target).
Proof.
  intros [Hr Hc]. rewrite (run_chain_after_next ext s _ c c' Hr Hc). reflexivity.
Qed.

Lemma or_else_present (p d : string) : p <> "" -> Str.or_else (Some p) d = p.
Proof. destruct p; [congruence | reflexivity]. Qed.

(** Every sign-in provider has its callback registered, as
    [passport.authenticate] followed by the inline redirect. *)
Lemma signin_callbacks_registered (provider : string) :
  In provider signin_providers ->
  callback_chain provider
  = Some [Authenticate provider (Some "/api/login"); RedirectBack "/api/"].
Proof.
  intros Hin. simpl in Hin.
  repeat (destruct Hin as [<- | Hin]; [vm_compute; reflexivity|]).
  contradiction.
Qed.

(** C4 (as the code has it): for the callback of each sign-in provider
    (Instagram, Facebook, GitHub, Google, Twitter, LinkedIn), when the
    authentication succeeds (passport calls [next()]), the response is the
    redirect to [req.session.returnTo || '/api/']: to [session.returnTo]
    when that value is present and not the empty string, and to [/api/]
    when it is absent or the empty string. *)
Theorem signin_callback_redirects_back
        (ext : Collaborators) (provider : string) (chain : list Step) (c c' : Ctx) :
  In provider signin_providers ->
  callback_chain provider = Some chain ->
  passes_first ext chain c c' ->
  result (run_chain ext chain c)
  = Respond (Redirect (Str.or_else (returnTo (req_session c')) "/api/"))
  /\ (forall p, returnTo (req_session c') = Some p -> p <> "" ->
                result (run_chain ext chain c) = Respond (Redirect p))
  /\ (returnTo (req_session c') = None \/ returnTo (req_session c') = Some "" ->
      result (run_chain ext chain c) = Respond (Redirect "/api/")).
Proof.
  intros Hin Hchain Hpass.
  rewrite (signin_callbacks_registered provider Hin) in Hchain.
  injection Hchain as <-.
  pose proof (callback_redirect_back ext _ _ c c' Hpass) as E.
  split; [exact E|]. split.
  - intros p Hp Hne. rewrite E, Hp, or_else_present by exact Hne. reflexivity.
  - intros [H | H]; rewrite E, H; reflexivity.
Qed.

Lemma signin_callback_redirects_back_witness :
  let ext := Reference.collaborators true in
  let chain := [Authenticate "github" (Some "/api/login"); RedirectBack "/api/"] in
  let c := Reference.request GET "/api/auth/github/callback" None (Some "/api/contact") in
  let c' := Reference.request GET "/api/auth/github/callback"
              (Some Reference.visitor) (Some "/api/contact") in
  result (run_chain ext chain c)
  = Respond (Redirect (Str.or_else (returnTo (req_session c')) "/api/"))
  /\ (forall p, returnTo (req_session c') = Some p -> p <> "" ->
                result (run_chain ext chain c) = Respond (Redirect p))
  /\ (returnTo (req_session c') = None \/ returnTo (req_session c') = Some "" ->
      result (run_chain ext chain c) = Respond (Redirect "/api/")).
Proof.
  apply (signin_callback_redirects_back
           (Reference.collaborators true) "github"
           [Authenticate "github" (Some "/api/login"); RedirectBack "/api/"]
           (Reference.request GET "/api/auth/github/callback" None
              (Some "/api/contact"))
           (Reference.request GET "/api/auth/github/callback"
              (Some Reference.visitor) (Some "/api/contact"))).
  - vm_compute. tauto.
  - vm_compute. reflexivity.
  - split; reflexivity.
Defined.

(** C4 (the claim as written fails), at two sessions of a signed-in
    principal who completes the Instagram callback.  With no [returnTo] in
    the session, the response is a redirect to [/api/], which is not the
    site root [/].  With [returnTo] present but the empty string, the
    response is again the redirect to [/api/], not a redirect to the
    stored value. *)
Lemma signin_callback_default_is_not_site_root :
  let ext := Reference.collaborators true in
  let chain := [Authenticate "instagram" (Some "/api/login"); RedirectBack "/api/"] in
  let c := Reference.request GET "/api/auth/instagram/callback"
             (Some Reference.visitor) None in
  let e := Reference.request GET "/api/auth/instagram/callback"
             (Some Reference.visitor) (Some "") in
  (passes_first ext chain c c
   /\ returnTo (req_session c) = None
   /\ app ext c
      = (set_locals_user (Some Reference.visitor) c,
         [CsrfValidation; Called "lusca.xframe"; Called "lusca.xssProtection";
          Called "express.static"; Called "passport.authenticate"],
         Redirect "/api/")
   /\ result (app ext c) <> Redirect site_root)
  /\ (passes_first ext chain e e
      /\ returnTo (req_session e) = Some ""
      /\ result (app ext e) = Redirect "/api/"
      /\ result (app ext e) <> Redirect "").
Proof.
  cbv zeta. repeat split; vm_compute; discriminate.
Qed.

(** The callbacks of the authorization-only providers, as registered. *)
Lemma authorization_callbacks_registered :
  callback_chain "foursquare"
  = Some [Authorize "foursquare" (Some "/api/api"); RedirectTo "/api/api/foursquare"]
  /\ callback_chain "tumblr"
     = Some [Authorize "tumblr" (Some "/api/api"); RedirectTo "/api/api/tumblr"]
  /\ callback_chain "steam"
     = Some [Authorize "openid" (Some "/api/login"); RedirectBack "/api/"]
  /\ callback_chain "pinterest"
     = Some [Authorize "pinterest" (Some "/api/login"); RedirectTo "/api/api/pinterest"].
Proof. repeat split; vm_compute; reflexivity. Qed.

(** C10 (as the code has it): after a successful authorization, the
    callbacks of Foursquare, Tumblr and Pinterest redirect to the fixed
    demonstration path [/api/api/<provider>], whatever the session holds;
    among the authorization-only providers only the Steam callback
    redirects to [session.returnTo], with [/api/] when that value is absent
    or empty. *)
Theorem authorization_callback_redirects
        (ext : Collaborators) (provider : string) (chain : list Step) (c c' : Ctx) :
  In provider authorization_providers ->
  callback_chain provider = Some chain ->
  passes_first ext chain c c' ->
  result (run_chain ext chain c)
  = Respond (Redirect (if String.eqb provider "steam"
                       then Str.or_else (returnTo (req_session c')) "/api/"
                       else ("/api/api/" ++ provider)%string)).
Proof.
  intros Hin Hchain Hpass.
  destruct authorization_callbacks_registered as (F & T & S & P).
  simpl in Hin.
  destruct Hin as [<- | [<- | [<- | [<- | []]]]].
  - rewrite F in Hchain. injection Hchain as <-.
    apply (callback_redirect_to ext _ _ c c' Hpass).
  - rewrite T in Hchain. injection Hchain as <-.
    apply (callback_redirect_to ext _ _ c c' Hpass).
  - rewrite S in Hchain. injection Hchain as <-.
    apply (callback_redirect_back ext _ _ c c' Hpass).
  - rewrite P in Hchain. injection Hchain as <-.
    apply (callback_redirect_to ext _ _ c c' Hpass).
Qed.

Lemma authorization_callback_redirects_witness :
  result (run_chain (Reference.collaborators true)
            [Authorize "tumblr" (Some "/api/api"); RedirectTo "/api/api/tumblr"]
            (Reference.request GET "/api/auth/tumblr/callback"
               (Some Reference.visitor) (Some "/api/contact")))
  = Respond (Redirect "/api/api/tumblr").
Proof.
  apply (authorization_callback_redirects (Reference.collaborators true) "tumblr"
           [Authorize "tumblr" (Some "/api/api"); RedirectTo "/api/api/tumblr"]
           (Reference.request GET "/api/auth/tumblr/callback"
              (Some Reference.visitor) (Some "/api/contact"))
           (Reference.request GET "/api/auth/tumblr/callback"
              (Some Reference.visitor) (Some "/api/contact"))).
  - vm_compute. tauto.
  - vm_compute. reflexivity.
  - split; reflexivity.
Defined.

(** C10 (the claim as written fails): a principal whose session holds no
    [returnTo] completes the Steam callback; the response is a redirect to
    [/api/], which is not the site root [/]. *)
Lemma steam_callback_default_is_not_site_root :
  let ext := Reference.collaborators true in
  let c := Reference.request GET "/api/auth/steam/callback"
             (Some Reference.visitor) None in
  passes_first ext [Authorize "openid" (Some "/api/login"); RedirectBack "/api/"] c c
  /\ returnTo (req_session c) = None
  /\ result (app ext c) = Redirect "/api/"
  /\ result (app ext c) <> Redirect site_root.
Proof.
  cbv zeta. repeat split; vm_compute; discriminate.
Qed.

(** ** The authorization gates *)

Lemma gated_chain_shape (chain : list Step) :
  gates_then_controller chain = true ->
  exists name, chain = [IsAuthenticated; IsAuthorized; Controller name].
Proof.
  destruct chain as [|[] [|[] [|[] [|]]]]; try discriminate.
  intros _. eexists. reflexivity.
Qed.

(** Every registration on a provider demonstration path has both gates
    before its controller, and every such path has a registration. *)
Lemma provider_demo_table :
  forallb (fun r => implb (is_provider_demo r) (gates_then_controller (r_chain r)))
          routes = true
  /\ forallb (fun p => existsb (fun r => String.eqb (r_path r) p) routes)
             provider_demo_paths = true.
Proof. split; vm_compute; reflexivity. Qed.

Lemma gated_chain_run (ext : Collaborators) (name : string) (c : Ctx) :
  run_chain ext [IsAuthenticated; IsAuthorized; Controller name] c =
  match req_user c with
  | None => (c, [GateCheck "isAuthenticated"], Respond (Diverted "isAuthenticated"))
  | Some u =>
      if holds_token (route_service ext (req_path c)) u
      then (c, [GateCheck "isAuthenticated"; GateCheck "isAuthorized"; Reached name],
            Respond (Handled name))
      else (c, [GateCheck "isAuthenticated"; GateCheck "isAuthorized"],
            Respond (Diverted "isAuthorized"))
  end.
Proof.
  cbn [run_chain step].
  unfold isAuthenticated, isAuthorized, bind, tell, get, ret.
  destruct (req_user c) as [u|] eqn:E; simpl; rewrite ?E; [|reflexivity].
  destruct (holds_token (route_service ext (req_path c)) u); reflexivity.
Qed.

(** C5: every registration for one of the provider demonstration endpoints
    (Steam, Foursquare, Tumblr, Facebook, GitHub, Twitter, LinkedIn,
    Instagram, Pinterest) is [isAuthenticated], [isAuthorized] and then the
    controller, in that order; a request without a valid token for the
    provider (no principal, or a principal without the token) is diverted
    by one of the two gates and the controller is not reached. *)
Theorem provider_demo_routes_are_gated
        (ext : Collaborators) (r : Route) (c : Ctx) :
  In r routes ->
  is_provider_demo r = true ->
  has_provider_token ext c = false ->
  (exists name, r_chain r = [IsAuthenticated; IsAuthorized; Controller name])
  /\ (exists gate, In gate ["isAuthenticated"; "isAuthorized"]
                   /\ result (run_chain ext (r_chain r) c) = Respond (Diverted gate))
  /\ existsb is_reached (events (run_chain ext (r_chain r) c)) = false.
Proof.
  intros Hin Hdemo Htok.
  destruct provider_demo_table as [Htable _].
  rewrite forallb_forall in Htable. specialize (Htable r Hin).
  rewrite Hdemo in Htable. simpl in Htable.
  destruct (gated_chain_shape _ Htable) as [name Hchain].
  split; [exists name; exact Hchain|].
  rewrite Hchain, gated_chain_run.
  unfold has_provider_token in Htok.
  destruct (req_user c) as [u|].
  - rewrite Htok. split; [|reflexivity].
    exists "isAuthorized". split; [right; left; reflexivity | reflexivity].
  - split; [|reflexivity].
    exists "isAuthenticated". split; [left; reflexivity | reflexivity].
Qed.

Lemma provider_demo_routes_are_gated_witness :
  let r := get_ "/api/api/github"
             [IsAuthenticated; IsAuthorized; Controller "apiController.getGithub"] in
  let c := Reference.request GET "/api/api/github"
             (Some (mkUser "ada" ["steam"])) None in
  existsb is_reached (events (run_chain (Reference.collaborators true) (r_chain r) c))
  = false.
Proof.
  apply (provider_demo_routes_are_gated (Reference.collaborators true)
           (get_ "/api/api/github"
              [IsAuthenticated; IsAuthorized; Controller "apiController.getGithub"])
           (Reference.request GET "/api/api/github"
              (Some (mkUser "ada" ["steam"])) None)).
  - vm_compute. tauto.
  - reflexivity.
  - reflexivity.
Defined.

(** ** The MongoDB connection block *)

Lemma connect_block_connects (p : Startup.Process) :
  Startup.readyState p <> 1 ->
  Startup.connect_block p =
  Startup.mkProcess (Startup.readyState p) (Startup.env p)
    (Startup.connect_calls p ++ [Startup.mongo_uri p]) true
    (Startup.console p) (Startup.status p).
Proof.
  intros H. unfold Startup.connect_block.
  apply Nat.eqb_neq in H. rewrite H. reflexivity.
Qed.

Lemma emit_errors_exited (red : string -> string) (errs : list string)
      (p : Startup.Process) :
  Startup.status p = Startup.Exited -> Startup.emit_errors red errs p = p.
Proof.
  intros H. unfold Startup.emit_errors.
  induction errs as [|e errs IH]; simpl; [reflexivity|].
  unfold Startup.emit_error at 2. rewrite H. exact IH.
Qed.

(** The block attempts a connection exactly when the default connection is
    not open as the module loads; it then installs its listener. *)
Lemma connect_block_attempts (p : Startup.Process) :
  (Startup.connect_calls (Startup.connect_block p)
   = Startup.connect_calls p ++ [Startup.mongo_uri p]
   /\ Startup.on_error (Startup.connect_block p) = true)
  <-> Startup.readyState p <> 1.
Proof.
  split.
  - intros [H _] E. unfold Startup.connect_block in H. rewrite E in H. simpl in H.
    apply (f_equal (@length _)) in H. rewrite length_app in H. simpl in H. lia.
  - intros H. rewrite (connect_block_connects p H). split; reflexivity.
Qed.

(** C7: when the module loads without an open connection ([readyState] is
    not 1), line 53 makes the one connection attempt and the listener is
    installed; on a failure of the connection the listener writes the
    error and the explanatory line to the console (whatever [chalk.red]
    does to the cross mark) and the process exits at once.  The failure
    adds no connection attempt, and nothing runs for any later failure: no
    retry, no backoff. *)
Theorem connection_failure_is_fatal
        (red : string -> string) (p : Startup.Process) (err : string)
        (later : list string) :
  Startup.readyState p <> 1 ->
  Startup.status p = Startup.Running ->
  let failed := Startup.emit_error red err (Startup.connect_block p) in
  Startup.console failed
  = Startup.console p
    ++ [Startup.ConsoleError err;
        Startup.ConsoleLog Startup.connection_error_message [red Startup.cross_mark]]
  /\ Startup.status failed = Startup.Exited
  /\ Startup.connect_calls failed = Startup.connect_calls p ++ [Startup.mongo_uri p]
  /\ Startup.emit_errors red later failed = failed.
Proof.
  intros Hstate Hrun failed. subst failed.
  rewrite (connect_block_connects p Hstate).
  assert (E : Startup.emit_error red err
                (Startup.mkProcess (Startup.readyState p) (Startup.env p)
                   (Startup.connect_calls p ++ [Startup.mongo_uri p]) true
                   (Startup.console p) (Startup.status p))
              = Startup.mkProcess (Startup.readyState p) (Startup.env p)
                  (Startup.connect_calls p ++ [Startup.mongo_uri p]) true
                  (Startup.console p
                   ++ [Startup.ConsoleError err;
                       Startup.ConsoleLog Startup.connection_error_message
                         [red Startup.cross_mark]])
                  Startup.Exited).
  { unfold Startup.emit_error. cbn [Startup.status Startup.on_error].
    rewrite Hrun. reflexivity. }
  rewrite E. repeat split.
  apply emit_errors_exited. reflexivity.
Qed.

Lemma connection_failure_is_fatal_witness :
  let red := fun s : string => s in
  let p := Startup.fresh 0 (fun k => if String.eqb k "MONGODB_URI"
                                     then Some "mongodb://localhost:27017/test"
                                     else None) in
  let failed := Startup.emit_error red "ECONNREFUSED" (Startup.connect_block p) in
  Startup.console failed
  = Startup.console p
    ++ [Startup.ConsoleError "ECONNREFUSED";
        Startup.ConsoleLog Startup.connection_error_message [red Startup.cross_mark]]
  /\ Startup.status failed = Startup.Exited
  /\ Startup.connect_calls failed = Startup.connect_calls p ++ [Startup.mongo_uri p]
  /\ Startup.emit_errors red ["ECONNREFUSED"; "ETIMEDOUT"] failed = failed.
Proof.
  apply (connection_failure_is_fatal (fun s : string => s)
           (Startup.fresh 0 (fun k => if String.eqb k "MONGODB_URI"
                                      then Some "mongodb://localhost:27017/test"
                                      else None))
           "ECONNREFUSED" ["ECONNREFUSED"; "ETIMEDOUT"]).
  - simpl. lia.
  - reflexivity.
Defined.

(** * Further properties *)

(** ** The return-to slot over the life of a session *)

Lemma track_cases (s : Session) (c : Ctx) :
  track s c = if captures c then mkSession (Some (req_path c)) else s.
Proof.
  destruct (captures c) eqn:E; [apply track_captured | apply track_skipped]; exact E.
Qed.

(** X1: after any sequence of requests on one session, [returnTo] is the
    path of the last request that satisfied a capture condition, and the
    value the session started with when no request did. *)
Theorem returnTo_is_last_capture (reqs : list Ctx) (s : Session) :
  returnTo (track_all reqs s)
  = match last_capture reqs with
    | Some p => Some p
    | None => returnTo s
    end.
Proof.
  unfold last_capture.
  induction reqs as [|c reqs IH] using rev_ind; [reflexivity|].
  rewrite track_all_snoc, track_cases, rev_unit. simpl.
  destruct (captures c); [reflexivity | exact IH].
Qed.

Lemma captured_path_acceptable (c : Ctx) :
  captures c = true -> acceptable (req_path c) = true.
Proof.
  unfold captures. intros H. apply orb_true_iff in H. destruct H as [H | H].
  - unfold capture_anonymous in H. unfold acceptable.
    destruct (req_user c); [discriminate|]. exact H.
  - apply capture_account_iff in H. destruct H as [_ ->]. reflexivity.
Qed.

(** X2: the middleware never stores the login path, the signup path, a
    path under [/auth] or a path with a dot: a session whose slot is empty
    or holds none of these keeps that property through every request,
    authenticated or not. *)
Theorem returnTo_stays_acceptable (reqs : list Ctx) (s : Session) :
  slot_acceptable s = true ->
  slot_acceptable (track_all reqs s) = true.
Proof.
  intros Hs. induction reqs as [|c reqs IH] using rev_ind; [exact Hs|].
  rewrite track_all_snoc, track_cases.
  destruct (captures c) eqn:E; [|exact IH].
  unfold slot_acceptable; simpl. apply captured_path_acceptable. exact E.
Qed.

Lemma returnTo_stays_acceptable_witness :
  slot_acceptable
    (track_all [Reference.request GET "/api/contact" None None;
                Reference.request GET "/api/login" None None;
                Reference.request GET "/api/account" (Some Reference.visitor) None;
                Reference.request GET "/css/main.css" None None]
               (mkSession None))
  = true.
Proof.
  apply (returnTo_stays_acceptable
           [Reference.request GET "/api/contact" None None;
            Reference.request GET "/api/login" None None;
            Reference.request GET "/api/account" (Some Reference.visitor) None;
            Reference.request GET "/css/main.css" None None]
           (mkSession None)).
  reflexivity.
Defined.

(** No registered path is under [/auth] and none has a dot. *)
Lemma registered_paths_pass_both_tests :
  forallb (fun r => negb (Str.starts_with "/auth" (r_path r))
                    && negb (Str.contains_char Str.dot (r_path r))) routes = true.
Proof. vm_compute. reflexivity. Qed.

(** X3: for a request without principal whose path is the path of any
    registration of the route table, the path is remembered exactly when
    it is neither the login nor the signup path: the [/auth] test and the
    dot test of lines 109-110 exclude no registered path. *)
Theorem anonymous_capture_on_registered_paths (r : Route) (c : Ctx) :
  In r routes ->
  req_path c = r_path r ->
  req_user c = None ->
  (captures c = true <-> r_path r <> login_path /\ r_path r <> signup_path).
Proof.
  intros Hin Hp Hu.
  pose proof registered_paths_pass_both_tests as H.
  rewrite forallb_forall in H. specialize (H r Hin).
  apply andb_true_iff in H. destruct H as [Ha Hd].
  rewrite negb_true_iff in Ha, Hd.
  unfold captures, capture_account. rewrite Hu. simpl. rewrite orb_false_r.
  rewrite capture_anonymous_iff, Hp, Ha, Hd. tauto.
Qed.

Lemma anonymous_capture_on_registered_paths_witness :
  captures (Reference.request POST "/api/contact" None None) = true
  <-> "/api/contact" <> login_path /\ "/api/contact" <> signup_path.
Proof.
  apply (anonymous_capture_on_registered_paths
           (post_ "/api/contact" [Controller "contactController.postContact"])
           (Reference.request POST "/api/contact" None None)).
  - vm_compute. tauto.
  - reflexivity.
  - reflexivity.
Defined.

(** X4: the middleware does not look at the method.  The path of a
    registration that exists for POST only (no GET registration on the same
    path) is remembered for a request without principal, whatever the
    method, although a later redirect to it finds no GET registration. *)
Theorem post_only_paths_are_remembered (r : Route) (c : Ctx) :
  In r routes ->
  r_method r = POST ->
  post_only (r_path r) = true ->
  req_path c = r_path r ->
  req_user c = None ->
  returnTo (req_session (final_ctx (remember_returnTo c))) = Some (r_path r)
  /\ registered GET (r_path r) = None.
Proof.
  intros Hin Hm Hpost Hp Hu. split.
  - rewrite returnTo_after.
    assert (Hc : captures c = true).
    { apply (anonymous_capture_on_registered_paths r c Hin Hp Hu).
      split; intros E; rewrite E in Hpost; vm_compute in Hpost; discriminate. }
    rewrite Hc, Hp. reflexivity.
  - unfold post_only in Hpost.
    destruct (registered GET (r_path r)); [discriminate | reflexivity].
Qed.

Lemma post_only_paths_are_remembered_witness :
  let c := Reference.request POST "/api/account/delete" None None in
  returnTo (req_session (final_ctx (remember_returnTo c))) = Some "/api/account/delete"
  /\ registered GET "/api/account/delete" = None.
Proof.
  apply (post_only_paths_are_remembered
           (post_ "/api/account/delete"
              [IsAuthenticated; Controller "userController.postDeleteAccount"])
           (Reference.request POST "/api/account/delete" None None)).
  - vm_compute. tauto.
  - reflexivity.
  - reflexivity.
  - reflexivity.
  - reflexivity.
Defined.

(** ** The order of the layers *)

Lemma run_layers_cons (l : Middleware) (rest : list Middleware) (c : Ctx) :
  run_layers (l :: rest) c =
  match result (l c) with
  | Next =>
      (final_ctx (run_layers rest (final_ctx (l c))),
       events (l c) ++ events (run_layers rest (final_ctx (l c))),
       result (run_layers rest (final_ctx (l c))))
  | _ => l c
  end.
Proof.
  destruct (result (l c)) eqn:E.
  - cbn [run_layers]. rewrite bind_run, E. reflexivity.
  - apply run_layers_stop. rewrite E. discriminate.
  - apply run_layers_stop. rewrite E. discriminate.
Qed.

(** From the CSRF middleware on, a request off the exempt path is
    validated once, before anything else. *)
Lemma layers_log_off_upload (ext : Collaborators) (c : Ctx) :
  req_path c <> upload_path ->
  exists rest,
    events (run_layers (layers ext) c) = CsrfValidation :: rest
    /\ existsb is_csrf_validation rest = false.
Proof.
  intros Hpath. apply String.eqb_neq in Hpath.
  change (layers ext) with (conditional_csrf (lusca_csrf ext) :: tl (layers ext)).
  rewrite run_layers_cons, conditional_csrf_run, Hpath.
  unfold result at 1; cbn [snd].
  destruct (snd (lusca_csrf ext c)).
  - eexists. split; [reflexivity|].
    apply run_layers_silent. apply later_layers_no_csrf.
  - exists []. split; reflexivity.
  - exists []. split; reflexivity.
Qed.

Lemma layers_log_on_upload (ext : Collaborators) (c : Ctx) :
  req_path c = upload_path ->
  existsb is_csrf_validation (events (run_layers (layers ext) c)) = false.
Proof.
  intros Hpath. apply String.eqb_eq in Hpath.
  assert (E : conditional_csrf (lusca_csrf ext) c = (c, [], Next)).
  { rewrite conditional_csrf_run, Hpath. reflexivity. }
  change (layers ext) with (conditional_csrf (lusca_csrf ext) :: tl (layers ext)).
  rewrite (run_layers_through _ _ c c E).
  apply run_layers_silent. apply later_layers_no_csrf.
Qed.

Lemma count_csrf_silent (log : list Event) :
  existsb is_csrf_validation log = false -> count_csrf log = 0.
Proof.
  unfold count_csrf. induction log as [|e log IH]; simpl; [reflexivity|].
  destruct (is_csrf_validation e); simpl; [discriminate | exact IH].
Qed.

Lemma count_csrf_app (l1 l2 : list Event) :
  count_csrf (l1 ++ l2) = count_csrf l1 + count_csrf l2.
Proof. unfold count_csrf. rewrite filter_app, length_app. reflexivity. Qed.

Lemma run_layers_app (l1 l2 : list Middleware) (c : Ctx) :
  run_layers (l1 ++ l2) c =
  match result (run_layers l1 c) with
  | Next =>
      (final_ctx (run_layers l2 (final_ctx (run_layers l1 c))),
       events (run_layers l1 c) ++ events (run_layers l2 (final_ctx (run_layers l1 c))),
       result (run_layers l2 (final_ctx (run_layers l1 c))))
  | _ => run_layers l1 c
  end.
Proof.
  revert c. induction l1 as [|l l1 IH]; intros c.
  - change ([] ++ l2) with l2. cbn [run_layers].
    unfold ret, result, final_ctx, events; cbn [fst snd].
    destruct (run_layers l2 c) as [[c2 e2] f2]. reflexivity.
  - rewrite <- app_comm_cons, !run_layers_cons.
    rewrite IH.
    unfold result, final_ctx, events.
    destruct (l c) as [[c1 e1] f1]; cbn [fst snd].
    destruct f1; [|reflexivity | reflexivity].
    destruct (run_layers l1 c1) as [[c2 e2] f2]; cbn [fst snd].
    destruct f2; cbn [fst snd]; rewrite ?app_assoc; reflexivity.
Qed.

Lemma events_of_triple {A} (c : Ctx) (log : list Event) (a : A) :
  events (c, log, a) = log.
Proof. reflexivity. Qed.

Lemma earlier_layers_no_csrf (third_party : string -> External) :
  Forall (silent is_csrf_validation) (earlier_layers third_party).
Proof.
  unfold earlier_layers. apply Forall_forall. intros l Hl.
  apply in_map_iff in Hl. destruct Hl as [name [<- _]].
  apply silent_call. reflexivity.
Qed.

(** X5: whatever the eleven layers registered before it (lines 68-90) do,
    the application invokes CSRF validation at most once for a request.  It
    is invoked exactly once when those layers hand the request on with a
    path other than [/api/api/upload], and not at all when one of them
    stops the request or the path is the exempt one; no later layer, gate
    or route handler invokes it. *)
Theorem csrf_validation_at_most_once
        (ext : Collaborators) (third_party : string -> External) (c : Ctx) :
  let before := run_layers (earlier_layers third_party) c in
  let log := events (run_layers (all_layers ext third_party) c) in
  count_csrf log <= 1
  /\ (count_csrf log = 1
      <-> result before = Next /\ req_path (final_ctx before) <> upload_path).
Proof.
  intros before log. subst log. unfold all_layers.
  rewrite run_layers_app. fold before.
  assert (Hb : count_csrf (events before) = 0).
  { apply count_csrf_silent. apply run_layers_silent. apply earlier_layers_no_csrf. }
  destruct (result before) eqn:Eb.
  - rewrite !events_of_triple, count_csrf_app, Hb.
    destruct (String.eqb (req_path (final_ctx before)) upload_path) eqn:Ep.
    + apply String.eqb_eq in Ep.
      rewrite (count_csrf_silent _ (layers_log_on_upload ext _ Ep)).
      split; [lia|]. split; [intros H; lia | intros [_ H]; contradiction].
    + apply String.eqb_neq in Ep.
      destruct (layers_log_off_upload ext _ Ep) as [rest [-> Hrest]].
      change (count_csrf (CsrfValidation :: rest)) with (S (count_csrf rest)).
      rewrite (count_csrf_silent _ Hrest).
      split; [lia|].
      split; [intros _; split; [reflexivity | exact Ep] | intros _; reflexivity].
  - rewrite Hb. split; [lia|].
    split; [intros H; lia | intros [H _]; discriminate H].
  - rewrite Hb. split; [lia|].
    split; [intros H; lia | intros [H _]; discriminate H].
Qed.

(** X6: when lusca's validator does not call [next()] for a request off
    the exempt path (it passes an error or answers itself), nothing after
    it runs: the request and session are left as the validator left them,
    so [session.returnTo] is not captured and [res.locals.user] is not
    set, and the log holds the validation alone. *)
Theorem refused_by_csrf_stops_everything (ext : Collaborators) (c c' : Ctx) (f : Flow) :
  req_path c <> upload_path ->
  lusca_csrf ext c = (c', f) ->
  f <> Next ->
  final_ctx (app ext c) = c'
  /\ events (app ext c) = [CsrfValidation]
  /\ result (app ext c)
     = match f with
       | Respond r => r
       | Raise status => ErrorPage status
       | Next => NotFound
       end.
Proof.
  intros Hpath Hcsrf Hf. apply String.eqb_neq in Hpath.
  assert (R : run_layers (layers ext) c = (c', [CsrfValidation], f)).
  { change (layers ext) with (conditional_csrf (lusca_csrf ext) :: tl (layers ext)).
    rewrite run_layers_cons, conditional_csrf_run, Hpath, Hcsrf.
    unfold result; cbn [fst snd]. destruct f; [congruence | reflexivity | reflexivity]. }
  rewrite app_run, R. repeat split.
Qed.

Lemma refused_by_csrf_stops_everything_witness :
  let c := Reference.request POST "/api/contact" None (Some "/api/forgot") in
  final_ctx (app (Reference.collaborators true) c) = c
  /\ events (app (Reference.collaborators true) c) = [CsrfValidation]
  /\ result (app (Reference.collaborators true) c) = ErrorPage 403.
Proof.
  apply (refused_by_csrf_stops_everything (Reference.collaborators true)
           (Reference.request POST "/api/contact" None (Some "/api/forgot"))
           (Reference.request POST "/api/contact" None (Some "/api/forgot"))
           (Raise 403)).
  - vm_compute. discriminate.
  - reflexivity.
  - discriminate.
Defined.

(** ** Gates in the route table *)







Lemma authorized_order_table :
  forallb (fun r => authorized_after_authenticated (r_chain r)) routes = true.
Proof. vm_compute. reflexivity. Qed.

Lemma step_no_authorized_check (ext : Collaborators) (s : Step) :
  is_IsAuthorized s = false -> silent is_authorized_check (step ext s).
Proof.
  destruct s; simpl; intros H; try discriminate.
  - apply isAuthenticated_silent; reflexivity.
  - silence.
  - silence.
  - silence.
  - silence.
  - unfold redirect_back. silence.
  - silence.
Qed.

Lemma run_chain_no_authorized_check (ext : Collaborators) (chain : list Step) :
  existsb is_IsAuthorized chain = false ->
  silent is_authorized_check (run_chain ext chain).
Proof.
  induction chain as [|s rest IH]; simpl; intros H; [apply silent_ret|].
  apply orb_false_iff in H. destruct H as [Hs Hrest].
  apply silent_bind; [apply step_no_authorized_check; exact Hs | intros f].
  apply silent_flow. apply IH. exact Hrest.
Qed.

(** X9: in no registration of the route table is [isAuthorized] invoked
    for a request without principal: wherever it is registered,
    [isAuthenticated] stands directly before it and has stopped such a
    request. *)
Theorem isAuthorized_never_sees_anonymous
        (ext : Collaborators) (r : Route) (c : Ctx) :
  In r routes ->
  req_user c = None ->
  existsb is_authorized_check (events (run_chain ext (r_chain r) c)) = false.
Proof.
  intros Hin Hu.
  pose proof authorized_order_table as Htable.
  rewrite forallb_forall in Htable. specialize (Htable r Hin).
  unfold authorized_after_authenticated in Htable.
  apply orb_true_iff in Htable. destruct Htable as [H | H].
  - apply run_chain_no_authorized_check. apply negb_true_iff. exact H.
  - destruct (gated_chain_shape _ H) as [name Hchain].
    rewrite Hchain, gated_chain_run, Hu. reflexivity.
Qed.

Lemma isAuthorized_never_sees_anonymous_witness :
  existsb is_authorized_check
    (events (run_chain (Reference.collaborators true)
               [IsAuthenticated; IsAuthorized; Controller "apiController.postTwitter"]
               (Reference.request POST "/api/api/twitter" None None)))
  = false.
Proof.
  apply (isAuthorized_never_sees_anonymous (Reference.collaborators true)
           (post_ "/api/api/twitter"
              [IsAuthenticated; IsAuthorized; Controller "apiController.postTwitter"])
           (Reference.request POST "/api/api/twitter" None None)).
  - vm_compute. tauto.
  - reflexivity.
Defined.

(** ** What the router sees *)

Lemma expose_user_run (c : Ctx) :
  expose_user c = (set_locals_user (req_user c) c, [], Next).
Proof. reflexivity. Qed.

Lemma captures_set_locals (u : option User) (c : Ctx) :
  captures (set_locals_user u c) = captures c.
Proof. reflexivity. Qed.

Lemma run_layers_pass (l : Middleware) (rest : list Middleware) (c c' : Ctx) :
  result (l c) = Next ->
  final_ctx (l c) = c' ->
  (final_ctx (run_layers (l :: rest) c), result (run_layers (l :: rest) c))
  = (final_ctx (run_layers rest c'), result (run_layers rest c')).
Proof.
  intros Hr Hc. rewrite run_layers_cons, Hr, Hc. reflexivity.
Qed.

Lemma call_pass (name : Event) (f : External) (c c' : Ctx) :
  f c = (c', Next) ->
  result (call name f c) = Next /\ final_ctx (call name f c) = c'.
Proof. intros H. rewrite call_run, H. split; reflexivity. Qed.

Lemma run_layers_last (d : Middleware) (c : Ctx) :
  (final_ctx (run_layers [d] c), result (run_layers [d] c))
  = (final_ctx (d c), result (d c)).
Proof.
  rewrite run_layers_cons.
  destruct (d c) as [[c1 l1] f]. unfold result, final_ctx; cbn [fst snd].
  destruct f; reflexivity.
Qed.

(** The seven layers with any router [d] in the last place. *)
Lemma layers_reach_router
      (l1 l2 l3 l6 d : Middleware) (c : Ctx) :
  let seen := final_ctx (remember_returnTo (set_locals_user (req_user c) c)) in
  result (l1 c) = Next -> final_ctx (l1 c) = c ->
  result (l2 c) = Next -> final_ctx (l2 c) = c ->
  result (l3 c) = Next -> final_ctx (l3 c) = c ->
  result (l6 seen) = Next -> final_ctx (l6 seen) = seen ->
  (final_ctx (run_layers [l1; l2; l3; expose_user; remember_returnTo; l6; d] c),
   result (run_layers [l1; l2; l3; expose_user; remember_returnTo; l6; d] c))
  = (final_ctx (d seen), result (d seen)).
Proof.
  intros seen H1 H1' H2 H2' H3 H3' H6 H6'.
  assert (Hseen : remember_returnTo (set_locals_user (req_user c) c) = (seen, [], Next)).
  { subst seen. rewrite remember_returnTo_run. reflexivity. }
  rewrite (run_layers_pass _ _ c c H1 H1').
  rewrite (run_layers_pass _ _ c c H2 H2').
  rewrite (run_layers_pass _ _ c c H3 H3').
  rewrite (run_layers_through expose_user _ c _ (expose_user_run c)).
  rewrite (run_layers_through remember_returnTo _ _ _ Hseen).
  rewrite (run_layers_pass _ _ seen seen H6 H6').
  apply run_layers_last.
Qed.

(** X10: when the third-party layers in front of the router call through
    without touching the request (the CSRF layer and lusca's two header
    layers on the incoming request, [express.static] on the request as the
    two first-party layers leave it), the router starts from a request in
    which [res.locals.user] is [req.user] and [session.returnTo] has
    already been updated by the capture rule; the application answers what
    the router answers from there. *)
Theorem router_sees_exposed_user_and_captured_path (ext : Collaborators) (c : Ctx) :
  let seen := final_ctx (remember_returnTo (set_locals_user (req_user c) c)) in
  result (conditional_csrf (lusca_csrf ext) c) = Next ->
  final_ctx (conditional_csrf (lusca_csrf ext) c) = c ->
  lusca_xframe ext "SAMEORIGIN" c = (c, Next) ->
  lusca_xssProtection ext true c = (c, Next) ->
  express_static ext seen = (seen, Next) ->
  res_locals_user seen = req_user c
  /\ returnTo (req_session seen)
     = (if captures c then Some (req_path c) else returnTo (req_session c))
  /\ final_ctx (app ext c) = final_ctx (dispatch ext routes seen)
  /\ result (run_layers (layers ext) c) = result (dispatch ext routes seen).
Proof.
  intros seen Hcsrf1 Hcsrf2 Hframe Hxss Hstatic.
  split; [subst seen; rewrite remember_returnTo_run; unfold final_ctx; simpl;
          destruct (captures _); reflexivity|].
  split; [subst seen; rewrite returnTo_after, captures_set_locals; reflexivity|].
  destruct (call_pass (Called "lusca.xframe") _ c c Hframe) as [F1 F2].
  destruct (call_pass (Called "lusca.xssProtection") _ c c Hxss) as [X1 X2].
  destruct (call_pass (Called "express.static") _ seen seen Hstatic) as [S1 S2].
  pose proof (layers_reach_router _ _ _ _ (dispatch ext routes) c
                Hcsrf1 Hcsrf2 F1 F2 X1 X2 S1 S2) as R.
  fold (layers ext) in R.
  apply pair_equal_spec in R. destruct R as [R1 R2].
  split; [|exact R2].
  rewrite app_run. exact R1.
Qed.

Lemma router_sees_exposed_user_and_captured_path_witness :
  let c := Reference.request GET "/api/account" (Some Reference.visitor)
             (Some "/api/contact") in
  let seen := final_ctx (remember_returnTo (set_locals_user (req_user c) c)) in
  res_locals_user seen = Some Reference.visitor
  /\ returnTo (req_session seen) = Some "/api/account"
  /\ final_ctx (app (Reference.collaborators true) c)
     = final_ctx (dispatch (Reference.collaborators true) routes seen)
  /\ result (run_layers (layers (Reference.collaborators true)) c)
     = result (dispatch (Reference.collaborators true) routes seen).
Proof.
  apply (router_sees_exposed_user_and_captured_path (Reference.collaborators true)
           (Reference.request GET "/api/account" (Some Reference.visitor)
              (Some "/api/contact"))).
  - reflexivity.
  - reflexivity.
  - reflexivity.
  - reflexivity.
  - reflexivity.
Defined.

(** ** Capture and callback together *)

Lemma signin_callback_paths :
  forallb (fun p => existsb (String.eqb (callback_path p)) oauth_paths
                    && Str.truthy (callback_path p)) signin_providers = true.
Proof. vm_compute. reflexivity. Qed.

(** X11: the capture middleware runs before the sign-in callback and does
    not exempt its path.  For a visitor without principal who arrives on
    the callback of a sign-in provider, whatever the session remembered
    before, when passport succeeds and leaves [session.returnTo] alone the
    response is a redirect to the callback path itself. *)
Theorem anonymous_signin_redirects_to_callback
        (ext : Collaborators) (provider : string) (chain : list Step) (c c' : Ctx) :
  let captured := final_ctx (remember_returnTo c) in
  In provider signin_providers ->
  callback_chain provider = Some chain ->
  req_user c = None ->
  req_path c = callback_path provider ->
  passes_first ext chain captured c' ->
  returnTo (req_session c') = returnTo (req_session captured) ->
  result (run_chain ext chain captured)
  = Respond (Redirect (callback_path provider)).
Proof.
  intros captured Hin Hchain Hu Hp Hpass Hkeep.
  rewrite (signin_callbacks_registered provider Hin) in Hchain.
  injection Hchain as <-.
  pose proof signin_callback_paths as Hpaths.
  rewrite forallb_forall in Hpaths. specialize (Hpaths provider Hin).
  apply andb_true_iff in Hpaths. destruct Hpaths as [Hmem Hne].
  apply existsb_exists in Hmem. destruct Hmem as [q [Hq Heq]].
  apply String.eqb_eq in Heq. subst q.
  pose proof oauth_paths_not_excluded as Hex.
  rewrite forallb_forall in Hex. specialize (Hex _ Hq).
  rewrite !andb_true_iff in Hex. destruct Hex as [[[E1 E2] E3] E4].
  assert (Hc : captures c = true).
  { unfold captures, capture_anonymous. rewrite Hu, Hp, E1, E2, E3, E4. reflexivity. }
  rewrite (callback_redirect_back ext _ _ captured c' Hpass), Hkeep.
  subst captured. rewrite returnTo_after, Hc, Hp. unfold Str.or_else.
  rewrite Hne. reflexivity.
Qed.

Lemma anonymous_signin_redirects_to_callback_witness :
  result (run_chain (Reference.collaborators true)
            [Authenticate "google" (Some "/api/login"); RedirectBack "/api/"]
            (final_ctx (remember_returnTo
               (Reference.request GET "/api/auth/google/callback" None
                  (Some "/api/account")))))
  = Respond (Redirect "/api/auth/google/callback").
Proof.
  apply (anonymous_signin_redirects_to_callback (Reference.collaborators true) "google"
           [Authenticate "google" (Some "/api/login"); RedirectBack "/api/"]
           (Reference.request GET "/api/auth/google/callback" None (Some "/api/account"))
           (Reference.request GET "/api/auth/google/callback"
              (Some Reference.visitor) (Some "/api/auth/google/callback"))).
  - vm_compute. tauto.
  - vm_compute. reflexivity.
  - reflexivity.
  - reflexivity.
  - split; reflexivity.
  - reflexivity.
Defined.

(** ** Settings *)

(** X12: the port setting (line 65).  A non-empty [PORT] wins; otherwise a
    non-empty [OPENSHIFT_NODEJS_PORT] is taken; the number 3000 is used
    exactly when neither variable is set to a non-empty string, so an
    empty value counts as unset and the port is never the empty string. *)
Theorem port_precedence (env : string -> option string) :
  (forall s, env "PORT" = Some s -> s <> "" -> Settings.port env = Settings.Text s)
  /\ (forall s, Settings.provided env "PORT" = false ->
                env "OPENSHIFT_NODEJS_PORT" = Some s -> s <> "" ->
                Settings.port env = Settings.Text s)
  /\ (Settings.port env = Settings.Number 3000
      <-> Settings.provided env "PORT" = false
          /\ Settings.provided env "OPENSHIFT_NODEJS_PORT" = false)
  /\ Settings.port env <> Settings.Text "".
Proof.
  unfold Settings.port, Settings.provided, Startup.or_env.
  destruct (env "PORT") as [p|]; destruct (env "OPENSHIFT_NODEJS_PORT") as [q|];
    try destruct p; try destruct q; simpl;
    repeat split; intros; try discriminate; try congruence;
    repeat match goal with
           | H : _ /\ _ |- _ => destruct H
           | H : Some _ = Some _ |- _ => injection H as <-
           end; try discriminate; try congruence; try reflexivity.
Qed.

(** ** Which registrations are gated *)

(** X13: a registration of the route table carries a gate of
    [config/passport] exactly when it is one of the account registrations
    (lines 137-141) or one of the provider demonstration endpoints (lines
    150-173): none of those is left without a gate, and no other
    registration (home, login, signup, password reset, contact, the other
    API demonstrations, the OAuth entry and callback routes) has one. *)
Theorem gates_cover_account_and_provider_routes (r : Route) :
  In r routes ->
  existsb is_gate (r_chain r) = is_account_route r || is_provider_demo r.
Proof.
  intros Hin.
  assert (H : forallb (fun x => Bool.eqb (existsb is_gate (r_chain x))
                                        (is_account_route x || is_provider_demo x))
                      routes = true) by (vm_compute; reflexivity).
  rewrite forallb_forall in H. apply Bool.eqb_prop. apply H. exact Hin.
Qed.

Lemma gates_cover_account_and_provider_routes_witness :
  existsb is_gate [Authenticate "github" (Some "/api/login"); RedirectBack "/api/"]
  = is_account_route (get_ "/api/auth/github/callback"
                        [Authenticate "github" (Some "/api/login"); RedirectBack "/api/"])
    || is_provider_demo (get_ "/api/auth/github/callback"
                           [Authenticate "github" (Some "/api/login"); RedirectBack "/api/"]).
Proof.
  apply (gates_cover_account_and_provider_routes
           (get_ "/api/auth/github/callback"
              [Authenticate "github" (Some "/api/login"); RedirectBack "/api/"])).
  vm_compute. tauto.
Defined.
